(** * pesaqrgen: the M-Pesa QR payload builder and its CRC16 checksum

    A shallow embedding of [src/utils/crc16.ts] and of the payload core of
    [src/App.tsx] ([validateNumber], [formatNumber], [generateQRValue]),
    followed by the properties of the payload format.

    JavaScript strings are sequences of 16-bit code units; they are modelled
    as lists of integers.  The bitwise operators work on 32-bit signed
    integers; their wrap-around is written out. *)

From Stdlib Require Import String Ascii ZArith List Bool Lia.
Import ListNotations.

Local Open Scope Z_scope.

(** ** JavaScript strings *)

Module JS.

(** A string is the list of its UTF-16 code units, each in [0, 65535].  The
    statements below that range over every list range over every string. *)
Definition jsstring := list Z.

(** String literals of the source, written as Rocq strings. *)
Fixpoint lit (s : string) : jsstring :=
  match s with
  | EmptyString => []
  | String a rest => Z.of_nat (nat_of_ascii a) :: lit rest
  end.

(** Truthiness of a string: only the empty string is falsy. *)
Definition truthy (s : jsstring) : bool :=
  match s with [] => false | _ :: _ => true end.

(** [s.startsWith(p)] *)
Fixpoint startsWith (s p : jsstring) {struct p} : bool :=
  match p, s with
  | [], _ => true
  | _ :: _, [] => false
  | cp :: p', cs :: s' => (cs =? cp) && startsWith s' p'
  end.

(** [s.slice(1)] *)
Definition slice1 (s : jsstring) : jsstring := tl s.

(** [s.slice(0, -k)] and [s.slice(-k)] for a string of at least [k] code
    units; for a shorter string JavaScript clamps the start to 0, which
    truncated subtraction on [nat] does as well. *)
Definition slice_drop_last (k : nat) (s : jsstring) : jsstring :=
  firstn (length s - k) s.
Definition slice_last (k : nat) (s : jsstring) : jsstring :=
  skipn (length s - k) s.

(** [s.includes(p)] *)
Fixpoint includes (s p : jsstring) : bool :=
  startsWith s p ||
  match s with
  | [] => false
  | _ :: s' => includes s' p
  end.

(** [s.padStart(n, fill)] for a one-character [fill]. *)
Definition padStart (n : nat) (fill : Z) (s : jsstring) : jsstring :=
  repeat fill (n - length s) ++ s.

(** [s.toUpperCase()] on the ASCII letters; the only call site applies it to
    the output of [toString(16)]. *)
Definition upper_unit (c : Z) : Z :=
  if (97 <=? c) && (c <=? 122) then c - 32 else c.
Definition toUpperCase (s : jsstring) : jsstring := map upper_unit s.

(** *** Number.prototype.toString(radix) on integers *)

(** The digit characters [0-9a-z]. *)
Definition digit_char (d : Z) : Z :=
  if d <? 10 then 48 + d else 87 + d.

Fixpoint digits (fuel : nat) (radix n : Z) : jsstring :=
  match fuel with
  | O => []
  | S f =>
      (if n / radix =? 0 then [] else digits f radix (n / radix))
        ++ [digit_char (n mod radix)]
  end.

(** A non-negative [n] has at most [log2 n + 1] digits in any radix. *)
Definition digits_fuel (n : Z) : nat := S (Z.to_nat (Z.log2 n)).

Definition toString (radix n : Z) : jsstring :=
  if n <? 0 then 45 :: digits (digits_fuel (- n)) radix (- n)
  else digits (digits_fuel n) radix n.

(** [s.length.toString()] *)
Definition length_toString (s : jsstring) : jsstring :=
  toString 10 (Z.of_nat (length s)).

(** *** 32-bit integer operators [<<], [^] and [&] *)

Definition toInt32 (z : Z) : Z := (z + 2147483648) mod 4294967296 - 2147483648.

Definition bitshl (a n : Z) : Z := toInt32 (Z.shiftl (toInt32 a) (n mod 32)).
Definition bitxor (a b : Z) : Z := toInt32 (Z.lxor (toInt32 a) (toInt32 b)).
Definition bitand (a b : Z) : Z := toInt32 (Z.land (toInt32 a) (toInt32 b)).

(** Truthiness of a number: zero is falsy. *)
Definition truthy_num (n : Z) : bool := negb (n =? 0).

End JS.

Import JS.

(** ** src/utils/crc16.ts *)

Module Crc16.

Definition polynomial : Z := 0x1021.

(** One pass of the body of the inner loop [for (j ...)]. *)
Definition bit_step (crc : Z) : Z :=
  let crc :=
    if truthy_num (bitand crc 0x8000)
    then bitxor (bitshl crc 1) polynomial
    else bitshl crc 1 in
  bitand crc 0xFFFF.

(** One pass of the outer loop, for the code unit [str.charCodeAt(i)]: the
    XOR into the register, then the inner loop, eight passes of its body. *)
Definition char_step (crc c : Z) : Z :=
  Nat.iter 8 bit_step (bitxor crc (bitshl c 8)).

(** The register after the outer loop over the code units of the string,
    front to back, from the initial value [0xFFFF]. *)
Definition crc_register (str : jsstring) : Z := fold_left char_step str 0xFFFF.

(** [crc.toString(16).toUpperCase().padStart(4, '0')] *)
Definition format_register (r : Z) : jsstring :=
  padStart 4 48 (toUpperCase (toString 16 r)).

Definition crc16ccitt (str : jsstring) : jsstring :=
  format_register (crc_register str).

End Crc16.

Import Crc16.

(** ** Regular expressions of the source

    The patterns of [validateNumber] are star-free: literals, character
    classes, concatenation and counted repetition, anchored at both ends. *)

Module Regex.

Inductive regex : Type :=
| Eps
| Class (p : Z -> bool)
| Seq (r1 r2 : regex)
| Alt (r1 r2 : regex).

(** Backtracking matcher: [accepts r s k] tries every way of matching a
    prefix of [s] with [r] and hands the rest to [k]. *)
Fixpoint accepts (r : regex) (s : jsstring) (k : jsstring -> bool) : bool :=
  match r with
  | Eps => k s
  | Class p =>
      match s with
      | [] => false
      | c :: s' => p c && k s'
      end
  | Seq r1 r2 => accepts r1 s (fun s' => accepts r2 s' k)
  | Alt r1 r2 => accepts r1 s k || accepts r2 s k
  end.

(** [/^r$/.test(s)] *)
Definition test_anchored (r : regex) (s : jsstring) : bool :=
  accepts r s (fun rest => negb (truthy rest)).

(** [\d] *)
Definition isDigit (c : Z) : bool := (48 <=? c) && (c <=? 57).
(** [[^\d]] *)
Definition notDigit (c : Z) : bool := negb (isDigit c).
(** A literal character, and the one-element class [[7]]. *)
Definition Chr (c : Z) : regex := Class (fun x => x =? c).

(** A literal string. *)
Fixpoint Lit (s : jsstring) : regex :=
  match s with
  | [] => Eps
  | c :: s' => Seq (Chr c) (Lit s')
  end.

(** [r{n}] *)
Fixpoint Rep (n : nat) (r : regex) : regex :=
  match n with
  | O => Eps
  | S m => Seq r (Rep m r)
  end.

(** [r{0,k}], greedy. *)
Fixpoint Upto (k : nat) (r : regex) : regex :=
  match k with
  | O => Eps
  | S m => Alt (Seq r (Upto m r)) Eps
  end.

(** [r{n,m}] *)
Definition RepRange (n m : nat) (r : regex) : regex :=
  Seq (Rep n r) (Upto (m - n) r).

(** [s.replace(/[p]/g, '')] for a character class [p]: every code unit in
    the class is dropped. *)
Definition replace_class_all (p : Z -> bool) (s : jsstring) : jsstring :=
  filter (fun c => negb (p c)) s.

End Regex.

Import Regex.

(** ** src/App.tsx *)

Module App.

(** [type PaymentType = 'paybill' | 'till' | 'phone'] *)
Inductive PaymentType : Type := paybill | till | phone.

(** The component state ([useState] hooks). *)
Record State : Type := mkState {
  paymentType : PaymentType;
  number : jsstring;
  accountNumber : jsstring;
  businessName : jsstring;
  error : option jsstring
}.

(** [value.replace(/[^\d]/g, '')] *)
Definition cleaned_of (value : jsstring) : jsstring :=
  replace_class_all notDigit value.

(** [validateNumber]; the [default] branch of the switch is excluded by the
    type of [paymentType]. *)
Definition validateNumber (paymentType : PaymentType) (value : jsstring) : bool :=
  if negb (truthy value) then false
  else
    let cleaned := cleaned_of value in
    match paymentType with
    | paybill => test_anchored (Rep 6 (Class isDigit)) cleaned
    | till => test_anchored (RepRange 5 6 (Class isDigit)) cleaned
    | phone =>
        if startsWith cleaned (lit "254") then
          test_anchored
            (Seq (Lit (lit "254")) (Seq (Chr 55) (Rep 8 (Class isDigit)))) cleaned
        else if startsWith cleaned (lit "0") then
          test_anchored
            (Seq (Lit (lit "0")) (Seq (Chr 55) (Rep 8 (Class isDigit)))) cleaned
        else
          test_anchored (Seq (Chr 55) (Rep 8 (Class isDigit))) cleaned
    end.

(** [formatNumber] *)
Definition formatNumber (paymentType : PaymentType) (value : jsstring) : jsstring :=
  let cleaned := cleaned_of value in
  match paymentType with
  | phone =>
      if startsWith cleaned (lit "254") then cleaned
      else if startsWith cleaned (lit "0") then lit "254" ++ slice1 cleaned
      else if (length cleaned =? 9)%nat then lit "254" ++ cleaned
      else cleaned
  | _ => cleaned
  end.

(** [s.length.toString().padStart(2, '0')] *)
Definition length_field (s : jsstring) : jsstring :=
  padStart 2 48 (length_toString s).

(** The value of [merchantInfo] when it is appended to [qrText]. *)
Definition merchantInfo_of (paymentType : PaymentType)
    (formattedNumber accountNumber : jsstring) : jsstring :=
  let merchantInfo := lit "" in
  let merchantInfo :=
    merchantInfo ++ lit "00" ++ lit "14" ++ lit "A000000677010111" in
  match paymentType with
  | paybill =>
      let merchantInfo :=
        merchantInfo ++ lit "01" ++ length_field formattedNumber ++ formattedNumber in
      if truthy accountNumber then
        merchantInfo ++ lit "02" ++ length_field accountNumber ++ accountNumber
      else merchantInfo
  | till =>
      merchantInfo ++ lit "03" ++ length_field formattedNumber ++ formattedNumber
  | phone =>
      merchantInfo ++ lit "04" ++ length_field formattedNumber ++ formattedNumber
  end.

(** The value of [qrText] just before the checksum is computed. *)
Definition qrText_before_crc (paymentType : PaymentType)
    (formattedNumber accountNumber businessName : jsstring) : jsstring :=
  let qrText := lit "000201" in
  let qrText := qrText ++ lit "0102" in
  let merchantInfo := merchantInfo_of paymentType formattedNumber accountNumber in
  let qrText := qrText ++ lit "26" ++ length_field merchantInfo ++ merchantInfo in
  let qrText := qrText ++ lit "5303KES" in
  let qrText := qrText ++ lit "5802KE" in
  let qrText :=
    if truthy businessName then
      qrText ++ lit "59" ++ length_field businessName ++ businessName
    else qrText in
  qrText ++ lit "6304".

(** How a [try] block completes. *)
Inductive completion : Type :=
| Return (v : jsstring)
| Throw.

(** The [try] block of [generateQRValue]. *)
Definition generateQRValue_try (paymentType : PaymentType)
    (number accountNumber businessName : jsstring) : completion :=
  if negb (truthy number) then Return (lit "")
  else
    let formattedNumber := formatNumber paymentType number in
    if negb (validateNumber paymentType number) then Return (lit "")
    else
      let qrText :=
        qrText_before_crc paymentType formattedNumber accountNumber businessName in
      let checksum := crc16ccitt qrText in
      let qrText := qrText ++ checksum in
      Return qrText.

(** [generateQRValue]: the [catch] clauses return the empty string. *)
Definition generateQRValue (paymentType : PaymentType)
    (number accountNumber businessName : jsstring) : jsstring :=
  match generateQRValue_try paymentType number accountNumber businessName with
  | Return v => v
  | Throw => lit ""
  end.

(** [const qrValue = generateQRValue()] inside the component: the function
    reads the four state variables it closes over. *)
Definition qrValue (st : State) : jsstring :=
  generateQRValue (paymentType st) (number st) (accountNumber st) (businessName st).

(** [const shouldShowQR = number && validateNumber(number)] *)
Definition shouldShowQR (st : State) : bool :=
  truthy (number st) && validateNumber (paymentType st) (number st).

End App.

Import App.

(** ** The CRC-16/CCITT-FALSE reference, after the specification

    Second definition for the refinement: the register is a natural number
    below [2^16], the arithmetic is unbounded and the mask is a remainder. *)

Module Reference.

(** A 16-bit register value. *)
Definition is16bit (r : Z) : Prop := 0 <= r < 65536.

Definition mask16 (x : Z) : Z := x mod 65536.

(** Bit 15 of a 16-bit register. *)
Definition top_bit (r : Z) : bool := Z.testbit r 15.

Definition ref_bit_step (r : Z) : Z :=
  mask16 (if top_bit r then Z.lxor (2 * r) 0x1021 else 2 * r).

(** XOR the byte into the high byte, then eight bit steps. *)
Definition ref_byte_step (r b : Z) : Z :=
  Nat.iter 8 ref_bit_step (Z.lxor r (b * 256)).

Definition ref_register (bytes : list Z) : Z :=
  fold_left ref_byte_step bytes 0xFFFF.

(** The uppercase hexadecimal digit of a nibble. *)
Definition hex_upper (d : Z) : Z := if d <? 10 then 48 + d else 55 + d.

(** Four hexadecimal digits, most significant first. *)
Definition hex4 (r : Z) : jsstring :=
  [hex_upper (r / 4096 mod 16); hex_upper (r / 256 mod 16);
   hex_upper (r / 16 mod 16); hex_upper (r mod 16)].

Definition crc16_ccitt_false (bytes : list Z) : jsstring :=
  hex4 (ref_register bytes).

(** [0-9A-F] *)
Definition isUpperHex (c : Z) : bool :=
  ((48 <=? c) && (c <=? 57)) || ((65 <=? c) && (c <=? 70)).

(** The value of a string of decimal digits. *)
Definition decimal_value (s : jsstring) : Z :=
  fold_left (fun acc c => 10 * acc + (c - 48)) s 0.

(** *** The per-type patterns of the validation step *)

Definition all_digits (s : jsstring) : bool := forallb isDigit s.

(** A subscriber number: [7] and eight more digits. *)
Definition is_subscriber (s : jsstring) : bool :=
  match s with
  | [] => false
  | c :: rest => (c =? 55) && (all_digits rest && (length rest =? 8)%nat)
  end.

(** [prefix] followed by a subscriber number. *)
Definition prefixed_subscriber (prefix s : jsstring) : bool :=
  startsWith s prefix && is_subscriber (skipn (length prefix) s).

(** paybill: exactly 6 digits; till: 5 or 6 digits; phone: [254], [0] or
    nothing in front of a subscriber number. *)
Definition pattern_ok (paymentType : PaymentType) (cleaned : jsstring) : bool :=
  match paymentType with
  | paybill => all_digits cleaned && (length cleaned =? 6)%nat
  | till =>
      all_digits cleaned && ((length cleaned =? 5)%nat || (length cleaned =? 6)%nat)
  | phone =>
      prefixed_subscriber (lit "254") cleaned
      || prefixed_subscriber (lit "0") cleaned
      || prefixed_subscriber (lit "") cleaned
  end.

End Reference.

Import Reference.

(** ** The payload read as tag-length-value fields *)

Module Tlv.

(** A field as it is emitted: its tag, the length it declares and its
    value. *)
Record field : Type := mkField {
  tag : jsstring;
  declared : jsstring;
  value : jsstring
}.

Definition emit (f : field) : jsstring := tag f ++ declared f ++ value f.

Definition emit_all (fs : list field) : jsstring := concat (map emit fs).

(** A field whose text is a literal of the source: two characters of tag,
    two of length, the rest is the value. *)
Definition literal_field (s : jsstring) : field :=
  mkField (firstn 2 s) (firstn 2 (skipn 2 s)) (skipn 4 s).

(** A field emitted as [tag + v.length.toString().padStart(2, '0') + v]. *)
Definition computed_field (t v : jsstring) : field :=
  mkField t (length_field v) v.

Definition tlv (t v : jsstring) : jsstring := emit (computed_field t v).

(** The sub-tag of the number, by payment type. *)
Definition number_tag (paymentType : PaymentType) : jsstring :=
  match paymentType with
  | paybill => lit "01"
  | till => lit "03"
  | phone => lit "04"
  end.

(** The GUID sub-field, emitted as ['00' + '14' + 'A000000677010111']. *)
Definition guid_field : field :=
  mkField (lit "00") (lit "14") (lit "A000000677010111").

(** The account sub-field: paybill only, and only when it is not empty. *)
Definition account_fields (paymentType : PaymentType)
    (accountNumber : jsstring) : list field :=
  match paymentType with
  | paybill =>
      if truthy accountNumber then [computed_field (lit "02") accountNumber]
      else []
  | _ => []
  end.

(** The merchant name field, only when it is not empty. *)
Definition name_fields (businessName : jsstring) : list field :=
  if truthy businessName then [computed_field (lit "59") businessName] else [].

(** The fields appended to [merchantInfo], in order. *)
Definition merchant_fields (paymentType : PaymentType)
    (formattedNumber accountNumber : jsstring) : list field :=
  [guid_field; computed_field (number_tag paymentType) formattedNumber]
    ++ account_fields paymentType accountNumber.

(** The fields appended to [qrText] before the checksum header, in order. *)
Definition body_fields (paymentType : PaymentType)
    (formattedNumber accountNumber businessName : jsstring) : list field :=
  [literal_field (lit "000201");
   literal_field (lit "0102");
   computed_field (lit "26")
     (merchantInfo_of paymentType formattedNumber accountNumber);
   literal_field (lit "5303KES");
   literal_field (lit "5802KE")]
    ++ name_fields businessName.

(** The checksum field: the header ['6304'] and the checksum. *)
Definition checksum_field (checksum : jsstring) : field :=
  mkField (lit "63") (lit "04") checksum.

(** Every field of a payload: those of [qrText] and those nested in tag 26. *)
Definition emitted_fields (paymentType : PaymentType)
    (number accountNumber businessName : jsstring) : list field :=
  let formattedNumber := formatNumber paymentType number in
  body_fields paymentType formattedNumber accountNumber businessName
    ++ [checksum_field
          (crc16ccitt
             (qrText_before_crc paymentType formattedNumber accountNumber
                businessName))]
    ++ merchant_fields paymentType formattedNumber accountNumber.

(** The declared length is two decimal digits and reads as the number of
    characters of the value. *)
Definition two_digit_length (f : field) : bool :=
  (length (declared f) =? 2)%nat
  && all_digits (declared f)
  && (decimal_value (declared f) =? Z.of_nat (length (value f))).

(** The declared length [d] is the decimal character count of [v], in at
    least two digits, and in exactly two when [v] has at most 99
    characters. *)
Definition declares_length (d v : jsstring) : Prop :=
  all_digits d = true /\
  decimal_value d = Z.of_nat (length v) /\
  (2 <= length d)%nat /\
  (length d = 2%nat <-> (length v <= 99)%nat).

(** A business name of one hundred letters [A]. *)
Definition hundred_As : jsstring := repeat 65 100.

End Tlv.

Import Tlv.

(** ** src/App.tsx: the handlers and the rendering conditions *)

Module Ui.

(** The payment type as the string it is in the source. *)
Definition paymentType_string (paymentType : PaymentType) : jsstring :=
  match paymentType with
  | paybill => lit "paybill"
  | till => lit "till"
  | phone => lit "phone"
  end.

(** [getPlaceholder]; the [default] branch is excluded by the type. *)
Definition getPlaceholder (paymentType : PaymentType) : jsstring :=
  match paymentType with
  | paybill => lit "123456"
  | till => lit "12345"
  | phone => lit "0712345678"
  end.

(** The state of the first render: the initial values of the hooks. *)
Definition initial : State :=
  mkState paybill (lit "") (lit "") (lit "") None.

(** The setters of the hooks. *)
Definition setPaymentType (t : PaymentType) (st : State) : State :=
  mkState t (number st) (accountNumber st) (businessName st) (error st).
Definition setNumber (v : jsstring) (st : State) : State :=
  mkState (paymentType st) v (accountNumber st) (businessName st) (error st).
Definition setAccountNumber (v : jsstring) (st : State) : State :=
  mkState (paymentType st) (number st) v (businessName st) (error st).
Definition setBusinessName (v : jsstring) (st : State) : State :=
  mkState (paymentType st) (number st) (accountNumber st) v (error st).
Definition setError (e : option jsstring) (st : State) : State :=
  mkState (paymentType st) (number st) (accountNumber st) (businessName st) e.

(** [handleNumberChange], on the value of the input. *)
Definition handleNumberChange (value : jsstring) (st : State) : State :=
  setError None (setNumber value st).

(** [handleAccountNumberChange], on the value of the input. *)
Definition handleAccountNumberChange (value : jsstring) (st : State) : State :=
  setError None (setAccountNumber value st).

(** The [onClick] of a payment type button. *)
Definition selectPaymentType (t : PaymentType) (st : State) : State :=
  setError None (setAccountNumber (lit "") (setNumber (lit "") (setPaymentType t st))).

(** The condition under which [QRCodeSVG] is rendered:
    [shouldShowQR && qrValue]. *)
Definition showsQR (st : State) : bool :=
  shouldShowQR st && truthy (qrValue st).

(** The [disabled] attribute of the two buttons:
    [!shouldShowQR || !qrValue]. *)
Definition buttonsDisabled (st : State) : bool :=
  negb (shouldShowQR st) || negb (truthy (qrValue st)).

(** The account input is rendered for paybill only. *)
Definition accountInputRendered (st : State) : bool :=
  match paymentType st with paybill => true | _ => false end.

(** [printQR]: the state it leaves and whether [window.print()] is called. *)
Definition printQR (st : State) : State * bool :=
  if negb (validateNumber (paymentType st) (number st)) then
    (setError (Some (lit "Please enter a valid number before printing")) st, false)
  else (st, true).

(** How [downloadQR] goes on: it returns early after [setError], or it enters
    its [try] block, where the link gets its file name once the image has
    loaded. *)
Inductive download_outcome : Type :=
| DownloadRefused (st' : State)
| DownloadTried (fileName : jsstring).

(** The file name [mpesa-qr-${paymentType}-${formatNumber(number)}.png]. *)
Definition downloadName (st : State) : jsstring :=
  lit "mpesa-qr-" ++ paymentType_string (paymentType st) ++ lit "-"
    ++ formatNumber (paymentType st) (number st) ++ lit ".png".

(** [downloadQR] up to its [try] block; [svg] tells whether
    [qrRef.current?.querySelector('svg')] finds an element. *)
Definition downloadQR (svg : bool) (st : State) : download_outcome :=
  if negb (validateNumber (paymentType st) (number st)) then
    DownloadRefused
      (setError (Some (lit "Please enter a valid number before downloading")) st)
  else if negb svg then
    DownloadRefused (setError (Some (lit "Error generating QR code")) st)
  else DownloadTried (downloadName st).

(** One user action on the rendered form.  An input or a button acts only
    when it is rendered and not disabled; the [try] block of [downloadQR]
    either completes or ends in its [catch] clause. *)
Inductive step : State -> State -> Prop :=
| step_select (t : PaymentType) (st : State) :
    step st (selectPaymentType t st)
| step_number (v : jsstring) (st : State) :
    step st (handleNumberChange v st)
| step_account (v : jsstring) (st : State) :
    accountInputRendered st = true ->
    step st (handleAccountNumberChange v st)
| step_business (v : jsstring) (st : State) :
    step st (setBusinessName v st)
| step_print (st : State) :
    buttonsDisabled st = false ->
    step st (fst (printQR st))
| step_download_refused (svg : bool) (st st' : State) :
    buttonsDisabled st = false ->
    downloadQR svg st = DownloadRefused st' ->
    step st st'
| step_download_done (svg : bool) (st : State) (fileName : jsstring) :
    buttonsDisabled st = false ->
    downloadQR svg st = DownloadTried fileName ->
    step st st
| step_download_caught (svg : bool) (st : State) (fileName : jsstring) :
    buttonsDisabled st = false ->
    downloadQR svg st = DownloadTried fileName ->
    step st (setError (Some (lit "Error downloading QR code")) st).

(** The states the form can be in. *)
Inductive reachable : State -> Prop :=
| reachable_initial : reachable initial
| reachable_step (st st' : State) :
    reachable st -> step st st' -> reachable st'.

(** The low byte of every code unit. *)
Definition low_bytes (s : jsstring) : jsstring := map (fun c => c mod 256) s.

(** A printable ASCII character. *)
Definition printable (c : Z) : bool := (32 <=? c) && (c <=? 126).

End Ui.

Import Ui.

(** ** The 32-bit operators on small values *)

Lemma toInt32_small (z : Z) :
  -2147483648 <= z < 2147483648 -> toInt32 z = z.
Proof.
  intros Hz. unfold toInt32.
  rewrite Z.mod_small by lia. lia.
Qed.

Lemma toInt32_range (z : Z) : -2147483648 <= toInt32 z < 2147483648.
Proof.
  unfold toInt32.
  pose proof (Z.mod_pos_bound (z + 2147483648) 4294967296 ltac:(lia)). lia.
Qed.

Lemma bitand_mask16 (x : Z) : bitand x 0xFFFF = toInt32 x mod 65536.
Proof.
  unfold bitand.
  rewrite (toInt32_small 65535) by lia.
  change 65535 with (Z.ones 16).
  rewrite Z.land_ones by lia.
  change (2 ^ 16) with 65536.
  apply toInt32_small.
  pose proof (Z.mod_pos_bound (toInt32 x) 65536 ltac:(lia)). lia.
Qed.

Lemma bitand_mask16_range (x : Z) : 0 <= bitand x 0xFFFF < 65536.
Proof.
  rewrite bitand_mask16. apply Z.mod_pos_bound. lia.
Qed.

Lemma lxor_below_pow2 (a b n : Z) :
  0 <= n -> 0 <= a < 2 ^ n -> 0 <= b < 2 ^ n -> 0 <= Z.lxor a b < 2 ^ n.
Proof.
  intros Hn Ha Hb. split.
  - apply Z.lxor_nonneg. lia.
  - destruct (Z.eq_dec (Z.lxor a b) 0) as [->|Hnz].
    + apply Z.pow_pos_nonneg; lia.
    + assert (Hpos : 0 < Z.lxor a b).
      { assert (0 <= Z.lxor a b) by (apply Z.lxor_nonneg; lia). lia. }
      assert (Hn0 : 0 < n).
      { destruct (Z.eq_dec n 0) as [->|]; [|lia].
        assert (a = 0) by (simpl in Ha; lia).
        assert (b = 0) by (simpl in Hb; lia).
        subst a b. simpl in Hnz. lia. }
      apply Z.log2_lt_pow2; [exact Hpos|].
      pose proof (Z.log2_lxor a b ltac:(lia) ltac:(lia)) as Hl.
      assert (Hla : Z.log2 a < n).
      { destruct (Z.eq_dec a 0) as [->|]; [simpl; lia|].
        apply Z.log2_lt_pow2; lia. }
      assert (Hlb : Z.log2 b < n).
      { destruct (Z.eq_dec b 0) as [->|]; [simpl; lia|].
        apply Z.log2_lt_pow2; lia. }
      lia.
Qed.

(** ** Loops with an invariant *)

Section LoopInvariants.

Variable A B : Type.
Variable Inv : A -> Prop.

Lemma iter_establishes (f : A -> A) (n : nat) (x : A) :
  (forall y, Inv (f y)) -> (0 < n)%nat -> Inv (Nat.iter n f x).
Proof.
  intros Hf Hn. destruct n as [|m]; [lia|].
  rewrite Nat.iter_succ. apply Hf.
Qed.

Lemma iter_agree (f g : A -> A) (n : nat) (x : A) :
  (forall y, Inv y -> f y = g y) -> (forall y, Inv y -> Inv (f y)) ->
  Inv x -> Nat.iter n f x = Nat.iter n g x /\ Inv (Nat.iter n f x).
Proof.
  intros Hfg Hf Hx. induction n as [|m [IHeq IHinv]].
  - split; [reflexivity|exact Hx].
  - rewrite !Nat.iter_succ. split.
    + rewrite <- IHeq. apply Hfg. exact IHinv.
    + apply Hf. exact IHinv.
Qed.

Lemma fold_left_preserves (f : A -> B -> A) (l : list B) (a : A) :
  (forall x b, Inv (f x b)) -> Inv a -> Inv (fold_left f l a).
Proof.
  intros Hf. revert a. induction l as [|b rest IH]; intros a Ha.
  - exact Ha.
  - cbn [fold_left]. apply IH. apply Hf.
Qed.

Lemma fold_left_agree (Good : B -> Prop) (f g : A -> B -> A)
    (l : list B) (a : A) :
  (forall x b, Inv x -> Good b -> f x b = g x b) ->
  (forall x b, Inv (f x b)) ->
  Forall Good l -> Inv a -> fold_left f l a = fold_left g l a.
Proof.
  intros Hfg Hf Hl. revert a.
  induction Hl as [|b rest Hb _ IH]; intros a Ha.
  - reflexivity.
  - cbn [fold_left]. rewrite <- (Hfg a b Ha Hb).
    apply IH. apply Hf.
Qed.

End LoopInvariants.

(** ** The checksum register stays within 16 bits *)

Lemma bit_step_range (crc : Z) : is16bit (bit_step crc).
Proof.
  unfold bit_step. apply bitand_mask16_range.
Qed.

Lemma char_step_range (crc c : Z) : is16bit (char_step crc c).
Proof.
  unfold char_step.
  apply (iter_establishes Z is16bit bit_step); [exact bit_step_range|lia].
Qed.

Lemma crc_register_range (str : jsstring) : is16bit (crc_register str).
Proof.
  unfold crc_register.
  apply (fold_left_preserves Z Z is16bit char_step); [exact char_step_range|].
  unfold is16bit. lia.
Qed.

(** ** Number.prototype.toString without fuel *)

Lemma pow2_nat_pos (f : nat) : 0 < 2 ^ Z.of_nat f.
Proof. apply Z.pow_pos_nonneg; lia. Qed.

Lemma div_radix_below (radix n : Z) (f : nat) :
  2 <= radix -> 0 <= n < 2 ^ Z.of_nat (S f) -> 0 <= n / radix < 2 ^ Z.of_nat f.
Proof.
  intros Hr [Hn0 Hn]. rewrite Nat2Z.inj_succ, Z.pow_succ_r in Hn by lia.
  split; [apply Z.div_pos; lia|].
  apply Z.div_lt_upper_bound; [lia|].
  pose proof (pow2_nat_pos f). nia.
Qed.

Lemma digits_fuel_irrelevant (radix : Z) (f1 f2 : nat) (n : Z) :
  2 <= radix -> (0 < f1)%nat -> (0 < f2)%nat ->
  0 <= n < 2 ^ Z.of_nat f1 -> n < 2 ^ Z.of_nat f2 ->
  digits f1 radix n = digits f2 radix n.
Proof.
  intros Hr. revert f2 n.
  induction f1 as [|g1 IH]; intros f2 n H1 H2 Hn1 Hn2; [lia|].
  destruct f2 as [|g2]; [lia|].
  cbn [digits].
  destruct (n / radix =? 0) eqn:E; [reflexivity|].
  apply Z.eqb_neq in E.
  assert (Hq1 := div_radix_below radix n g1 Hr Hn1).
  assert (Hq2 := div_radix_below radix n g2 Hr (conj (proj1 Hn1) Hn2)).
  assert (Hg1 : (0 < g1)%nat).
  { destruct g1; [|lia]. change (2 ^ Z.of_nat 0) with 1 in Hq1. lia. }
  assert (Hg2 : (0 < g2)%nat).
  { destruct g2; [|lia]. change (2 ^ Z.of_nat 0) with 1 in Hq2. lia. }
  f_equal. apply IH; [exact Hg1|exact Hg2|exact Hq1|apply Hq2].
Qed.

Lemma digits_fuel_enough (n : Z) :
  0 <= n -> 0 <= n < 2 ^ Z.of_nat (digits_fuel n).
Proof.
  intros Hn. unfold digits_fuel. split; [exact Hn|].
  rewrite Nat2Z.inj_succ, Z2Nat.id by apply Z.log2_nonneg.
  destruct (Z.eq_dec n 0) as [->|Hnz]; [reflexivity|].
  apply Z.log2_spec. lia.
Qed.

(** The recursive equation of the decimal or hexadecimal rendering. *)
Lemma toString_unfold (radix n : Z) :
  2 <= radix -> 0 <= n ->
  toString radix n =
    (if n / radix =? 0 then [] else toString radix (n / radix))
      ++ [digit_char (n mod radix)].
Proof.
  intros Hr Hn. unfold toString.
  assert (Hq : 0 <= n / radix) by (apply Z.div_pos; lia).
  destruct (Z.ltb_spec n 0) as [|_]; [lia|].
  destruct (Z.ltb_spec (n / radix) 0) as [|_]; [lia|].
  pose proof (digits_fuel_enough n Hn) as Hfuel.
  unfold digits_fuel at 1. fold (digits_fuel n) in Hfuel.
  cbn [digits].
  destruct (n / radix =? 0) eqn:E; [reflexivity|].
  apply Z.eqb_neq in E. f_equal.
  assert (Hbelow := div_radix_below radix n (Z.to_nat (Z.log2 n)) Hr Hfuel).
  apply digits_fuel_irrelevant.
  - exact Hr.
  - destruct (Z.to_nat (Z.log2 n)); [|lia].
    change (2 ^ Z.of_nat 0) with 1 in Hbelow. lia.
  - unfold digits_fuel. lia.
  - exact Hbelow.
  - apply digits_fuel_enough. exact Hq.
Qed.

Lemma toString_one_digit (radix n : Z) :
  2 <= radix -> 0 <= n < radix -> toString radix n = [digit_char n].
Proof.
  intros Hr Hn. rewrite toString_unfold by lia.
  rewrite Z.div_small, Z.mod_small by lia. reflexivity.
Qed.

Lemma toString_snoc (radix n : Z) :
  2 <= radix -> radix <= n ->
  toString radix n = toString radix (n / radix) ++ [digit_char (n mod radix)].
Proof.
  intros Hr Hn. rewrite toString_unfold at 1 by lia.
  assert (0 < n / radix) by (apply Z.div_str_pos; lia).
  destruct (Z.eqb_spec (n / radix) 0) as [E|_]; [lia|reflexivity].
Qed.

Lemma toString_nonempty (radix n : Z) :
  2 <= radix -> 0 <= n -> (1 <= length (toString radix n))%nat.
Proof.
  intros Hr Hn. rewrite toString_unfold by lia.
  rewrite length_app. simpl. lia.
Qed.

(** ** Formatting a 16-bit register *)

Lemma upper_digit_char (d : Z) :
  0 <= d < 16 -> upper_unit (digit_char d) = hex_upper d.
Proof.
  intros Hd. unfold upper_unit, digit_char, hex_upper.
  destruct (Z.ltb_spec d 10).
  - destruct (Z.leb_spec 97 (48 + d)); [lia|reflexivity].
  - destruct (Z.leb_spec 97 (87 + d)); [|lia].
    destruct (Z.leb_spec (87 + d) 122); [cbn [andb]; lia|lia].
Qed.

Lemma hex_digit_range (r k : Z) : 0 <= r / k mod 16 < 16.
Proof. apply Z.mod_pos_bound. lia. Qed.

Lemma format_register_hex4 (r : Z) :
  is16bit r -> format_register r = hex4 r.
Proof.
  unfold is16bit, format_register, hex4. intros Hr.
  assert (H16 : r / 16 / 16 = r / 256) by (rewrite Z.div_div by lia; reflexivity).
  assert (H256 : r / 256 / 16 = r / 4096) by (rewrite Z.div_div by lia; reflexivity).
  assert (Hd0 := upper_digit_char (r mod 16) (Z.mod_pos_bound r 16 ltac:(lia))).
  assert (Hd1 := upper_digit_char _ (hex_digit_range r 16)).
  assert (Hd2 := upper_digit_char _ (hex_digit_range r 256)).
  assert (Hd3 := upper_digit_char _ (hex_digit_range r 4096)).
  destruct (Z_lt_le_dec r 16) as [Ha|Ha].
  { rewrite toString_one_digit by lia.
    rewrite (Z.div_small r 4096), (Z.div_small r 256), (Z.div_small r 16) by lia.
    rewrite (Z.mod_small r 16) in * by lia.
    cbn [toUpperCase map]. rewrite Hd0. reflexivity. }
  rewrite (toString_snoc 16 r) by lia.
  assert (Hq1 : 1 <= r / 16 < 4096).
  { split; [apply Z.div_le_lower_bound; lia|apply Z.div_lt_upper_bound; lia]. }
  destruct (Z_lt_le_dec r 256) as [Hb|Hb].
  { assert (r / 16 < 16) by (apply Z.div_lt_upper_bound; lia).
    rewrite toString_one_digit by lia.
    rewrite (Z.div_small r 4096), (Z.div_small r 256) by lia.
    rewrite (Z.mod_small (r / 16) 16) in * by lia.
    cbn [toUpperCase map app]. rewrite Hd0, Hd1. reflexivity. }
  assert (16 <= r / 16) by (apply Z.div_le_lower_bound; lia).
  rewrite (toString_snoc 16 (r / 16)) by lia. rewrite H16.
  destruct (Z_lt_le_dec r 4096) as [Hc|Hc].
  { assert (0 <= r / 256 < 16).
    { split; [apply Z.div_pos; lia|apply Z.div_lt_upper_bound; lia]. }
    rewrite toString_one_digit by lia.
    rewrite (Z.div_small r 4096) by lia.
    rewrite (Z.mod_small (r / 256) 16) in * by lia.
    cbn [toUpperCase map app]. rewrite Hd0, Hd1, Hd2. reflexivity. }
  assert (16 <= r / 256) by (apply Z.div_le_lower_bound; lia).
  rewrite (toString_snoc 16 (r / 256)) by lia. rewrite H256.
  assert (0 <= r / 4096 < 16).
  { split; [apply Z.div_pos; lia|apply Z.div_lt_upper_bound; lia]. }
  rewrite toString_one_digit by lia.
  rewrite (Z.mod_small (r / 4096) 16) in * by lia.
  cbn [toUpperCase map app]. rewrite Hd0, Hd1, Hd2, Hd3. reflexivity.
Qed.

Lemma hex_upper_isUpperHex (d : Z) :
  0 <= d < 16 -> isUpperHex (hex_upper d) = true.
Proof.
  intros Hd. unfold isUpperHex, hex_upper.
  destruct (d <? 10) eqn:E; [apply Z.ltb_lt in E | apply Z.ltb_ge in E].
  - apply orb_true_iff. left. apply andb_true_iff. split; apply Z.leb_le; lia.
  - apply orb_true_iff. right. apply andb_true_iff. split; apply Z.leb_le; lia.
Qed.

Lemma hex4_upper_hex (r : Z) : forallb isUpperHex (hex4 r) = true.
Proof.
  unfold hex4. cbn [forallb].
  rewrite !hex_upper_isUpperHex; [reflexivity| | | |];
    apply Z.mod_pos_bound; lia.
Qed.

Lemma crc16ccitt_hex4 (str : jsstring) :
  crc16ccitt str = hex4 (crc_register str).
Proof.
  unfold crc16ccitt. apply format_register_hex4, crc_register_range.
Qed.

Lemma crc16ccitt_length (str : jsstring) : length (crc16ccitt str) = 4%nat.
Proof. rewrite crc16ccitt_hex4. reflexivity. Qed.

(** ** The source loop against the reference register *)

Lemma land_bit15 (r : Z) :
  Z.land r 32768 = if Z.testbit r 15 then 32768 else 0.
Proof.
  apply Z.bits_inj'. intros n Hn.
  rewrite Z.land_spec. change 32768 with (2 ^ 15).
  rewrite Z.pow2_bits_eqb by lia.
  destruct (Z.eqb_spec 15 n) as [<-|Hne].
  - destruct (Z.testbit r 15); reflexivity.
  - rewrite andb_false_r.
    destruct (Z.testbit r 15).
    + rewrite Z.pow2_bits_false by lia. reflexivity.
    + rewrite Z.bits_0. reflexivity.
Qed.

Lemma bit15_test (r : Z) :
  is16bit r -> truthy_num (bitand r 0x8000) = top_bit r.
Proof.
  unfold is16bit, bitand, truthy_num, top_bit. intros Hr.
  rewrite (toInt32_small r), (toInt32_small 32768) by lia.
  rewrite land_bit15.
  destruct (Z.testbit r 15); reflexivity.
Qed.

Lemma bitshl_one (r : Z) : is16bit r -> bitshl r 1 = 2 * r.
Proof.
  unfold is16bit, bitshl. intros Hr.
  change (1 mod 32) with 1.
  rewrite (toInt32_small r) by lia.
  rewrite Z.shiftl_mul_pow2 by lia. change (2 ^ 1) with 2.
  rewrite toInt32_small by lia. lia.
Qed.

Lemma bit_step_ref (r : Z) : is16bit r -> bit_step r = ref_bit_step r.
Proof.
  intros Hr. unfold bit_step, ref_bit_step, mask16.
  rewrite bitand_mask16, bit15_test, bitshl_one by exact Hr.
  unfold is16bit in Hr.
  destruct (top_bit r).
  - unfold bitxor, polynomial.
    assert (Hx : 0 <= Z.lxor (2 * r) 4129 < 2 ^ 17).
    { apply lxor_below_pow2; change (2 ^ 17) with 131072; lia. }
    change (2 ^ 17) with 131072 in Hx.
    rewrite (toInt32_small (2 * r)), (toInt32_small 4129) by lia.
    rewrite !(toInt32_small (Z.lxor (2 * r) 4129)) by lia.
    reflexivity.
  - rewrite toInt32_small by lia. reflexivity.
Qed.

Lemma high_byte_xor (crc c : Z) :
  is16bit crc -> 0 <= c < 256 ->
  bitxor crc (bitshl c 8) = Z.lxor crc (c * 256) /\
  is16bit (Z.lxor crc (c * 256)).
Proof.
  unfold is16bit. intros Hcrc Hc.
  assert (Hx : 0 <= Z.lxor crc (c * 256) < 2 ^ 16).
  { apply lxor_below_pow2; change (2 ^ 16) with 65536; lia. }
  change (2 ^ 16) with 65536 in Hx.
  split; [|exact Hx].
  unfold bitxor, bitshl.
  change (8 mod 32) with 8.
  rewrite (toInt32_small c) by lia.
  rewrite Z.shiftl_mul_pow2 by lia. change (2 ^ 8) with 256.
  rewrite !(toInt32_small (c * 256)) by lia.
  rewrite (toInt32_small crc) by lia.
  apply toInt32_small. lia.
Qed.

Lemma char_step_ref (crc c : Z) :
  is16bit crc -> 0 <= c < 256 ->
  char_step crc c = ref_byte_step crc c.
Proof.
  intros Hcrc Hc. unfold char_step, ref_byte_step.
  destruct (high_byte_xor crc c Hcrc Hc) as [-> Hx].
  apply (iter_agree Z is16bit bit_step ref_bit_step 8).
  - exact bit_step_ref.
  - intros y _. apply bit_step_range.
  - exact Hx.
Qed.

Lemma crc_register_ref (str : jsstring) :
  Forall (fun c => 0 <= c < 256) str ->
  crc_register str = ref_register str.
Proof.
  intros Hstr. unfold crc_register, ref_register.
  apply (fold_left_agree Z Z is16bit (fun c => 0 <= c < 256)).
  - exact char_step_ref.
  - exact char_step_range.
  - exact Hstr.
  - unfold is16bit. lia.
Qed.

(** ** The regular expressions of [validateNumber] *)

Section Matcher.

Variable p : Z -> bool.

Lemma accepts_Rep_Class (n : nat) (s : jsstring) (k : jsstring -> bool) :
  accepts (Rep n (Class p)) s k =
    (n <=? length s)%nat && forallb p (firstn n s) && k (skipn n s).
Proof.
  revert s. induction n as [|m IH]; intros s.
  - reflexivity.
  - destruct s as [|c s'].
    + reflexivity.
    + cbn [Rep accepts]. rewrite IH.
      cbn [length firstn skipn forallb Nat.leb].
      destruct (p c), (m <=? length s')%nat, (forallb p (firstn m s'));
        reflexivity.
Qed.

Lemma truthy_skipn (n : nat) (s : jsstring) :
  truthy (skipn n s) = (n <? length s)%nat.
Proof.
  revert s. induction n as [|m IH]; intros [|c s']; try reflexivity.
  cbn [skipn length]. rewrite IH. reflexivity.
Qed.

(** [/^[p]{n}$/] accepts the strings of [n] characters of the class. *)
Lemma test_anchored_Rep (n : nat) (s : jsstring) :
  test_anchored (Rep n (Class p)) s = forallb p s && (length s =? n)%nat.
Proof.
  unfold test_anchored. rewrite accepts_Rep_Class, truthy_skipn.
  destruct (Nat.eqb_spec (length s) n) as [E|E].
  - rewrite firstn_all2 by lia.
    replace (n <=? length s)%nat with true by (symmetry; apply Nat.leb_le; lia).
    replace (n <? length s)%nat with false by (symmetry; apply Nat.ltb_ge; lia).
    destruct (forallb p s); reflexivity.
  - rewrite andb_false_r.
    destruct (Nat.leb_spec n (length s)) as [Hle|Hlt]; [|reflexivity].
    replace (n <? length s)%nat with true by (symmetry; apply Nat.ltb_lt; lia).
    apply andb_false_r.
Qed.

(** [/^[p]{n,n+1}$/] *)
Lemma test_anchored_RepRange_succ (n : nat) (s : jsstring) :
  test_anchored (RepRange n (S n) (Class p)) s =
    forallb p s && ((length s =? n)%nat || (length s =? S n)%nat).
Proof.
  unfold test_anchored, RepRange.
  replace (S n - n)%nat with 1%nat by lia.
  cbn [Upto accepts]. rewrite accepts_Rep_Class.
  destruct (Nat.leb_spec n (length s)) as [Hle|Hlt].
  - assert (Hs : s = firstn n s ++ skipn n s) by (symmetry; apply firstn_skipn).
    assert (Hf : length (firstn n s) = n) by (rewrite length_firstn; lia).
    remember (firstn n s) as f eqn:Ef. remember (skipn n s) as t eqn:Et.
    clear Ef Et. subst s. rewrite forallb_app, length_app, Hf.
    destruct t as [|c [|c' t]]; cbn [length].
    + replace (n + 0 =? n)%nat with true by (symmetry; apply Nat.eqb_eq; lia).
      cbn [forallb truthy negb orb andb].
      destruct (forallb p f); reflexivity.
    + replace (n + 1 =? n)%nat with false by (symmetry; apply Nat.eqb_neq; lia).
      replace (n + 1 =? S n)%nat with true by (symmetry; apply Nat.eqb_eq; lia).
      cbn [forallb truthy negb orb andb].
      destruct (forallb p f), (p c); reflexivity.
    + replace (n + S (S (length t)) =? n)%nat with false
        by (symmetry; apply Nat.eqb_neq; lia).
      replace (n + S (S (length t)) =? S n)%nat with false
        by (symmetry; apply Nat.eqb_neq; lia).
      cbn [truthy negb orb andb].
      rewrite !andb_false_r. reflexivity.
  - replace (length s =? n)%nat with false by (symmetry; apply Nat.eqb_neq; lia).
    replace (length s =? S n)%nat with false by (symmetry; apply Nat.eqb_neq; lia).
    cbn [orb andb]. rewrite andb_false_r. reflexivity.
Qed.

End Matcher.

Lemma accepts_Lit (l s : jsstring) (k : jsstring -> bool) :
  accepts (Lit l) s k = startsWith s l && k (skipn (length l) s).
Proof.
  revert s. induction l as [|c l' IH]; intros s.
  - destruct s; reflexivity.
  - destruct s as [|x s']; [reflexivity|].
    cbn [Lit accepts Chr startsWith length skipn].
    rewrite IH. apply andb_assoc.
Qed.

(** [/^[7]\d{8}$/] *)
Lemma test_anchored_subscriber (s : jsstring) :
  test_anchored (Seq (Chr 55) (Rep 8 (Class isDigit))) s = is_subscriber s.
Proof.
  destruct s as [|c rest]; [reflexivity|].
  unfold test_anchored, is_subscriber, all_digits.
  cbn [accepts Chr]. f_equal.
  apply (test_anchored_Rep isDigit 8 rest).
Qed.

(** [/^l[7]\d{8}$/] for a literal prefix [l]. *)
Lemma test_anchored_prefixed (l s : jsstring) :
  test_anchored (Seq (Lit l) (Seq (Chr 55) (Rep 8 (Class isDigit)))) s =
    prefixed_subscriber l s.
Proof.
  unfold test_anchored, prefixed_subscriber.
  cbn [accepts]. rewrite accepts_Lit. f_equal.
  apply test_anchored_subscriber.
Qed.

(** ** Digit stripping *)

Lemma cleaned_of_all_digits (value : jsstring) :
  all_digits (cleaned_of value) = true.
Proof.
  unfold all_digits, cleaned_of, replace_class_all.
  apply forallb_forall. intros c Hc.
  apply filter_In in Hc as [_ Hc].
  unfold notDigit in Hc. rewrite negb_involutive in Hc. exact Hc.
Qed.

Lemma cleaned_of_digits (s : jsstring) :
  all_digits s = true -> cleaned_of s = s.
Proof.
  unfold all_digits, cleaned_of, replace_class_all, notDigit.
  induction s as [|c rest IH]; intros H; [reflexivity|].
  cbn [forallb] in H. apply andb_true_iff in H as [Hc Hrest].
  cbn [filter]. rewrite Hc. cbn [negb]. f_equal. apply IH. exact Hrest.
Qed.

Lemma cleaned_of_idempotent (value : jsstring) :
  cleaned_of (cleaned_of value) = cleaned_of value.
Proof. apply cleaned_of_digits, cleaned_of_all_digits. Qed.

Lemma cleaned_of_empty : cleaned_of [] = [].
Proof. reflexivity. Qed.

(** ** [validateNumber] against the per-type patterns *)

Lemma pattern_ok_empty (paymentType : PaymentType) :
  pattern_ok paymentType [] = false.
Proof. destruct paymentType; reflexivity. Qed.

Lemma starts_254_excludes (s : jsstring) :
  startsWith s (lit "254") = true ->
  startsWith s (lit "0") = false /\ is_subscriber s = false.
Proof.
  destruct s as [|c rest]; [discriminate|].
  cbn [lit startsWith is_subscriber].
  intros H. apply andb_true_iff in H as [Hc _]. apply Z.eqb_eq in Hc. subst c.
  split; reflexivity.
Qed.

Lemma starts_0_excludes (s : jsstring) :
  startsWith s (lit "0") = true -> is_subscriber s = false.
Proof.
  destruct s as [|c rest]; [discriminate|].
  cbn [lit startsWith is_subscriber].
  intros H. apply andb_true_iff in H as [Hc _]. apply Z.eqb_eq in Hc. subst c.
  reflexivity.
Qed.

Lemma validateNumber_pattern (paymentType : PaymentType) (value : jsstring) :
  validateNumber paymentType value = pattern_ok paymentType (cleaned_of value).
Proof.
  unfold validateNumber.
  destruct value as [|c0 v0].
  { cbn [truthy negb]. rewrite cleaned_of_empty, pattern_ok_empty. reflexivity. }
  cbn [truthy negb]. cbv zeta.
  set (cleaned := cleaned_of (c0 :: v0)).
  destruct paymentType; cbn [pattern_ok].
  - apply (test_anchored_Rep isDigit 6).
  - apply (test_anchored_RepRange_succ isDigit 5).
  - rewrite !test_anchored_prefixed, test_anchored_subscriber.
    replace (prefixed_subscriber (lit "") cleaned) with (is_subscriber cleaned)
      by reflexivity.
    destruct (startsWith cleaned (lit "254")) eqn:E254.
    + destruct (starts_254_excludes cleaned E254) as [E0 Esub].
      assert (P0 : prefixed_subscriber (lit "0") cleaned = false)
        by (unfold prefixed_subscriber; rewrite E0; reflexivity).
      rewrite P0, Esub, !orb_false_r. reflexivity.
    + assert (P254 : prefixed_subscriber (lit "254") cleaned = false)
        by (unfold prefixed_subscriber; rewrite E254; reflexivity).
      rewrite P254. cbn [orb].
      destruct (startsWith cleaned (lit "0")) eqn:E0.
      * rewrite (starts_0_excludes cleaned E0), orb_false_r. reflexivity.
      * assert (P0 : prefixed_subscriber (lit "0") cleaned = false)
          by (unfold prefixed_subscriber; rewrite E0; reflexivity).
        rewrite P0. reflexivity.
Qed.

(** ** [formatNumber] *)

Lemma all_digits_tl (s : jsstring) : all_digits s = true -> all_digits (tl s) = true.
Proof.
  destruct s as [|c rest]; [intros; reflexivity|].
  unfold all_digits. cbn [forallb tl]. intros H.
  apply andb_true_iff in H. apply H.
Qed.

Lemma all_digits_254 (s : jsstring) :
  all_digits s = true -> all_digits (lit "254" ++ s) = true.
Proof.
  unfold all_digits. intros H. rewrite forallb_app, H. reflexivity.
Qed.

(** A digit string in the [254] form is left as it is. *)
Lemma formatNumber_phone_254 (s : jsstring) :
  all_digits s = true -> startsWith s (lit "254") = true ->
  formatNumber phone s = s.
Proof.
  intros Hd H254. unfold formatNumber.
  rewrite (cleaned_of_digits s Hd), H254. reflexivity.
Qed.

Lemma formatNumber_idempotent (paymentType : PaymentType) (value : jsstring) :
  formatNumber paymentType (formatNumber paymentType value) =
    formatNumber paymentType value.
Proof.
  pose proof (cleaned_of_all_digits value) as Hd.
  destruct paymentType; try apply cleaned_of_idempotent.
  unfold formatNumber at 2 3. cbv zeta.
  destruct (startsWith (cleaned_of value) (lit "254")) eqn:E254.
  - apply formatNumber_phone_254; assumption.
  - destruct (startsWith (cleaned_of value) (lit "0")) eqn:E0.
    + apply formatNumber_phone_254; [|reflexivity].
      apply all_digits_254, all_digits_tl, Hd.
    + destruct (length (cleaned_of value) =? 9)%nat eqn:E9.
      * apply formatNumber_phone_254; [|reflexivity].
        apply all_digits_254, Hd.
      * unfold formatNumber.
        rewrite cleaned_of_idempotent, E254, E0, E9. reflexivity.
Qed.

Lemma is_subscriber_shape (sub : jsstring) :
  is_subscriber sub = true ->
  all_digits sub = true /\ length sub = 9%nat /\
  startsWith sub (lit "254") = false /\ startsWith sub (lit "0") = false.
Proof.
  destruct sub as [|c rest]; [discriminate|].
  unfold is_subscriber. intros H.
  apply andb_true_iff in H as [Hc H]. apply andb_true_iff in H as [Hd Hl].
  apply Z.eqb_eq in Hc. subst c. apply Nat.eqb_eq in Hl.
  repeat split.
  - unfold all_digits in *. cbn [forallb]. rewrite Hd. reflexivity.
  - cbn [length]. lia.
Qed.

(** The three accepted forms of one subscriber number have one normal form. *)
Lemma formatNumber_phone_forms (sub : jsstring) :
  is_subscriber sub = true ->
  formatNumber phone (lit "254" ++ sub) = lit "254" ++ sub /\
  formatNumber phone (lit "0" ++ sub) = lit "254" ++ sub /\
  formatNumber phone sub = lit "254" ++ sub.
Proof.
  intros Hsub.
  destruct (is_subscriber_shape sub Hsub) as (Hd & Hl & H254 & H0).
  repeat split.
  - apply formatNumber_phone_254; [apply all_digits_254, Hd|reflexivity].
  - unfold formatNumber. rewrite cleaned_of_digits.
    + reflexivity.
    + unfold all_digits in *. cbn [lit app forallb]. rewrite Hd. reflexivity.
  - unfold formatNumber. rewrite (cleaned_of_digits sub Hd), H254, H0, Hl.
    reflexivity.
Qed.

(** An accepted phone number is one of the three forms of its subscriber
    number. *)
Lemma pattern_ok_phone_forms (cleaned : jsstring) :
  pattern_ok phone cleaned = true ->
  exists sub, is_subscriber sub = true /\
    (cleaned = lit "254" ++ sub \/ cleaned = lit "0" ++ sub \/ cleaned = sub).
Proof.
  assert (Hpre : forall l s, prefixed_subscriber l s = true ->
            is_subscriber (skipn (length l) s) = true /\
            s = l ++ skipn (length l) s).
  { intros l. unfold prefixed_subscriber.
    induction l as [|c l' IH]; intros s H.
    - split; [exact H|reflexivity].
    - destruct s as [|x s']; [discriminate|].
      cbn [startsWith length skipn] in H |- *.
      apply andb_true_iff in H as [H Hsub].
      apply andb_true_iff in H as [Hx Hrest].
      apply Z.eqb_eq in Hx. subst x.
      destruct (IH s') as [Hs Heq]; [rewrite Hrest; exact Hsub|].
      split; [exact Hs|]. cbn [app]. f_equal. exact Heq. }
  cbn [pattern_ok]. intros H.
  apply orb_true_iff in H as [H|H]; [apply orb_true_iff in H as [H|H]|];
    apply Hpre in H as [Hsub Heq];
    eexists; (split; [exact Hsub|]); auto.
Qed.

(** ** Decimal lengths *)

Lemma decimal_value_snoc (s : jsstring) (c : Z) :
  decimal_value (s ++ [c]) = 10 * decimal_value s + (c - 48).
Proof. unfold decimal_value. rewrite fold_left_app. reflexivity. Qed.

Lemma all_digits_snoc (s : jsstring) (c : Z) :
  all_digits (s ++ [c]) = all_digits s && isDigit c.
Proof.
  unfold all_digits. rewrite forallb_app. cbn [forallb].
  rewrite andb_true_r. reflexivity.
Qed.

Lemma decimal_digit_char (d : Z) :
  0 <= d < 10 -> digit_char d = 48 + d /\ isDigit (digit_char d) = true.
Proof.
  intros Hd. unfold digit_char, isDigit.
  destruct (Z.ltb_spec d 10); [|lia].
  split; [reflexivity|].
  apply andb_true_iff. split; apply Z.leb_le; lia.
Qed.

(** The decimal rendering is made of digits and reads back as the number. *)
Lemma toString_decimal (n : Z) :
  0 <= n ->
  all_digits (toString 10 n) = true /\ decimal_value (toString 10 n) = n.
Proof.
  intros Hn.
  refine (Z_lt_induction
            (fun k => 0 <= k ->
               all_digits (toString 10 k) = true /\
               decimal_value (toString 10 k) = k) _ n Hn Hn).
  clear n Hn. intros n IH Hn.
  destruct (decimal_digit_char (n mod 10) (Z.mod_pos_bound n 10 ltac:(lia)))
    as [Hchar Hdig].
  destruct (Z_lt_le_dec n 10) as [Hsmall|Hbig].
  - rewrite toString_one_digit by lia.
    rewrite Z.mod_small in Hchar, Hdig by lia.
    unfold all_digits, decimal_value. cbn [forallb fold_left].
    rewrite Hdig, Hchar. split; [reflexivity|lia].
  - rewrite toString_snoc by lia.
    assert (Hq : 0 <= n / 10 < n).
    { split; [apply Z.div_pos; lia|apply Z.div_lt; lia]. }
    destruct (IH (n / 10) Hq (proj1 Hq)) as [IHd IHv].
    rewrite all_digits_snoc, decimal_value_snoc, IHd, IHv, Hdig, Hchar.
    split; [reflexivity|].
    pose proof (Z.div_mod n 10 ltac:(lia)). lia.
Qed.

Lemma toString_decimal_length (n : Z) :
  0 <= n ->
  (n < 10 -> length (toString 10 n) = 1%nat) /\
  (10 <= n < 100 -> length (toString 10 n) = 2%nat) /\
  (100 <= n -> (3 <= length (toString 10 n))%nat).
Proof.
  intros Hn. repeat split.
  - intros H. rewrite toString_one_digit by lia. reflexivity.
  - intros H. rewrite toString_snoc by lia.
    assert (0 <= n / 10 < 10).
    { split; [apply Z.div_pos; lia|apply Z.div_lt_upper_bound; lia]. }
    rewrite toString_one_digit by lia. reflexivity.
  - intros H. rewrite toString_snoc by lia.
    assert (10 <= n / 10) by (apply Z.div_le_lower_bound; lia).
    rewrite (toString_snoc 10 (n / 10)) by lia.
    assert (0 <= n / 10 / 10) by (apply Z.div_pos; lia).
    pose proof (toString_nonempty 10 (n / 10 / 10) ltac:(lia) ltac:(lia)).
    rewrite !length_app. cbn [length]. lia.
Qed.

(** ** [padStart] *)

Lemma padStart_length (k : nat) (fill : Z) (s : jsstring) :
  length (padStart k fill s) = Nat.max k (length s).
Proof.
  unfold padStart. rewrite length_app, repeat_length. lia.
Qed.

Lemma padStart_long (k : nat) (fill : Z) (s : jsstring) :
  (k <= length s)%nat -> padStart k fill s = s.
Proof.
  intros H. unfold padStart.
  replace (k - length s)%nat with 0%nat by lia. reflexivity.
Qed.

Lemma padStart_zero_decimal (k : nat) (s : jsstring) :
  all_digits (padStart k 48 s) = all_digits s /\
  decimal_value (padStart k 48 s) = decimal_value s.
Proof.
  unfold padStart. generalize (k - length s)%nat as z. intros z.
  induction z as [|z [IHd IHv]]; [split; reflexivity|].
  split.
  - unfold all_digits in *. cbn [repeat app forallb]. exact IHd.
  - unfold decimal_value in *. cbn [repeat app fold_left]. exact IHv.
Qed.

(** The length prefix the source computes for a value. *)
Lemma length_field_declares (v : jsstring) :
  declares_length (length_field v) v.
Proof.
  unfold declares_length, length_field, length_toString.
  set (n := Z.of_nat (length v)).
  assert (Hn : 0 <= n) by (unfold n; lia).
  destruct (toString_decimal n Hn) as [Hd Hv].
  destruct (padStart_zero_decimal 2 (toString 10 n)) as [Pd Pv].
  destruct (toString_decimal_length n Hn) as (L1 & L2 & L3).
  rewrite Pd, Pv, padStart_length.
  split; [exact Hd|]. split; [exact Hv|]. split; [lia|].
  unfold n in *. split; intros H.
  - destruct (Z_lt_le_dec (Z.of_nat (length v)) 100) as [|Hbig]; [lia|].
    specialize (L3 Hbig). lia.
  - destruct (Z_lt_le_dec (Z.of_nat (length v)) 10) as [Hs|Hb].
    + rewrite (L1 Hs). reflexivity.
    + rewrite L2 by lia. reflexivity.
Qed.

(** Beyond 99 characters the prefix is the bare decimal count, three or more
    digits long. *)
Lemma length_field_overlong (v : jsstring) :
  (99 < length v)%nat ->
  length_field v = length_toString v /\
  (3 <= length (length_toString v))%nat /\
  all_digits (length_toString v) = true /\
  decimal_value (length_toString v) = Z.of_nat (length v).
Proof.
  intros H. unfold length_field, length_toString.
  assert (Hn : 0 <= Z.of_nat (length v)) by lia.
  destruct (toString_decimal _ Hn) as [Hd Hv].
  destruct (toString_decimal_length _ Hn) as (_ & _ & L3).
  specialize (L3 ltac:(lia)).
  repeat split; try assumption.
  apply padStart_long. lia.
Qed.

(** ** The payload as a sequence of fields *)

Lemma merchantInfo_fields (paymentType : PaymentType)
    (formattedNumber accountNumber : jsstring) :
  merchantInfo_of paymentType formattedNumber accountNumber =
    emit_all (merchant_fields paymentType formattedNumber accountNumber).
Proof.
  unfold merchantInfo_of, emit_all, merchant_fields, account_fields.
  destruct paymentType; [destruct (truthy accountNumber)| |];
    cbn [map concat emit computed_field guid_field tag declared value app
         number_tag];
    rewrite <- ?app_assoc, ?app_nil_r; reflexivity.
Qed.

Lemma qrText_fields (paymentType : PaymentType)
    (formattedNumber accountNumber businessName : jsstring) :
  qrText_before_crc paymentType formattedNumber accountNumber businessName =
    emit_all (body_fields paymentType formattedNumber accountNumber businessName)
      ++ lit "6304".
Proof.
  unfold qrText_before_crc, emit_all, body_fields, name_fields. cbv zeta.
  generalize (merchantInfo_of paymentType formattedNumber accountNumber) as mi.
  intros mi.
  destruct (truthy businessName);
    cbn [map concat emit computed_field literal_field tag declared value app
         lit firstn skipn];
    rewrite <- ?app_assoc, ?app_nil_r; reflexivity.
Qed.

(** ** The two outcomes of [generateQRValue] *)

Lemma validateNumber_nonempty (paymentType : PaymentType) (number : jsstring) :
  validateNumber paymentType number = true -> truthy number = true.
Proof.
  destruct number; [|reflexivity]. unfold validateNumber. discriminate.
Qed.

Lemma generateQRValue_try_valid (paymentType : PaymentType)
    (number accountNumber businessName : jsstring) :
  validateNumber paymentType number = true ->
  generateQRValue_try paymentType number accountNumber businessName =
    Return
      (qrText_before_crc paymentType (formatNumber paymentType number)
         accountNumber businessName
       ++ crc16ccitt
            (qrText_before_crc paymentType (formatNumber paymentType number)
               accountNumber businessName)).
Proof.
  intros Hv. unfold generateQRValue_try.
  rewrite (validateNumber_nonempty _ _ Hv), Hv. reflexivity.
Qed.

Lemma generateQRValue_try_invalid (paymentType : PaymentType)
    (number accountNumber businessName : jsstring) :
  validateNumber paymentType number = false ->
  generateQRValue_try paymentType number accountNumber businessName =
    Return (lit "").
Proof.
  intros Hv. unfold generateQRValue_try.
  rewrite Hv. destruct (truthy number); reflexivity.
Qed.

Lemma generateQRValue_valid (paymentType : PaymentType)
    (number accountNumber businessName : jsstring) :
  validateNumber paymentType number = true ->
  generateQRValue paymentType number accountNumber businessName =
    qrText_before_crc paymentType (formatNumber paymentType number)
      accountNumber businessName
    ++ crc16ccitt
         (qrText_before_crc paymentType (formatNumber paymentType number)
            accountNumber businessName).
Proof.
  intros Hv. unfold generateQRValue.
  rewrite (generateQRValue_try_valid _ _ _ _ Hv). reflexivity.
Qed.

Lemma generateQRValue_invalid (paymentType : PaymentType)
    (number accountNumber businessName : jsstring) :
  validateNumber paymentType number = false ->
  generateQRValue paymentType number accountNumber businessName = lit "".
Proof.
  intros Hv. unfold generateQRValue.
  rewrite (generateQRValue_try_invalid _ _ _ _ Hv). reflexivity.
Qed.

Lemma qrText_before_crc_starts (paymentType : PaymentType)
    (formattedNumber accountNumber businessName : jsstring) :
  exists rest,
    qrText_before_crc paymentType formattedNumber accountNumber businessName =
      lit "000201" ++ rest.
Proof.
  unfold qrText_before_crc. cbv zeta.
  destruct (truthy businessName); rewrite <- ?app_assoc; eexists; reflexivity.
Qed.

Lemma emit_all_app (fs gs : list field) :
  emit_all (fs ++ gs) = emit_all fs ++ emit_all gs.
Proof. unfold emit_all. rewrite map_app, concat_app. reflexivity. Qed.

Lemma emit_all_cons (f : field) (fs : list field) :
  emit_all (f :: fs) = emit f ++ emit_all fs.
Proof. reflexivity. Qed.

Lemma emit_checksum_field (checksum : jsstring) :
  emit (checksum_field checksum) = lit "6304" ++ checksum.
Proof. reflexivity. Qed.

Lemma tlv_checksum (checksum : jsstring) :
  length checksum = 4%nat ->
  tlv (lit "63") checksum = lit "6304" ++ checksum.
Proof.
  intros H. unfold tlv, emit, computed_field, length_field, length_toString.
  cbn [tag declared value]. rewrite H. reflexivity.
Qed.

(** The payload of a valid number is the body fields followed by the
    checksum field. *)
Lemma generateQRValue_fields (paymentType : PaymentType)
    (number accountNumber businessName : jsstring) :
  validateNumber paymentType number = true ->
  generateQRValue paymentType number accountNumber businessName =
    emit_all
      (body_fields paymentType (formatNumber paymentType number)
         accountNumber businessName)
    ++ emit
         (checksum_field
            (crc16ccitt
               (qrText_before_crc paymentType (formatNumber paymentType number)
                  accountNumber businessName))).
Proof.
  intros Hv. rewrite (generateQRValue_valid _ _ _ _ Hv).
  rewrite emit_checksum_field.
  rewrite qrText_fields at 1. rewrite <- app_assoc. reflexivity.
Qed.

(** ** Slices at the end of a string *)

Lemma slice_app (k : nat) (q c : jsstring) :
  length c = k ->
  slice_drop_last k (q ++ c) = q /\ slice_last k (q ++ c) = c.
Proof.
  intros H. unfold slice_drop_last, slice_last.
  rewrite length_app, H.
  replace (length q + k - k)%nat with (length q) by lia.
  split.
  - rewrite firstn_app, Nat.sub_diag, firstn_all. cbn [firstn].
    apply app_nil_r.
  - rewrite skipn_app, Nat.sub_diag, skipn_all. reflexivity.
Qed.

(** ** The caller's guard *)

Lemma shouldShowQR_payload (st : State) :
  shouldShowQR st = truthy (qrValue st).
Proof.
  unfold shouldShowQR, qrValue.
  destruct (validateNumber (paymentType st) (number st)) eqn:Hv.
  - rewrite (validateNumber_nonempty _ _ Hv).
    rewrite (generateQRValue_valid _ _ (accountNumber st) (businessName st) Hv).
    destruct (qrText_before_crc_starts (paymentType st)
                (formatNumber (paymentType st) (number st))
                (accountNumber st) (businessName st)) as [rest ->].
    reflexivity.
  - rewrite (generateQRValue_invalid _ _ (accountNumber st) (businessName st) Hv).
    apply andb_false_r.
Qed.

(** ** The two hardcoded fields whose length is not computed *)

(** The GUID sub-field declares 14 for a value of 16 characters. *)
Lemma guid_field_declared_length :
  emit guid_field = lit "0014A000000677010111" /\
  decimal_value (declared guid_field) = 14 /\
  length (value guid_field) = 16%nat /\
  two_digit_length guid_field = false.
Proof. repeat split. Qed.

(** The point-of-initiation text is a tag and a length with no value. *)
Lemma initiation_field_declared_length :
  literal_field (lit "0102") = mkField (lit "01") (lit "02") (lit "") /\
  two_digit_length (literal_field (lit "0102")) = false.
Proof. split; reflexivity. Qed.

(** * The claims *)

(** C8. For every input string, [crc16ccitt] returns exactly four characters
    and each of them is an uppercase hexadecimal digit, [0-9] or [A-F]. *)
Theorem crc16ccitt_four_upper_hex (s : jsstring) :
  length (crc16ccitt s) = 4%nat /\ forallb isUpperHex (crc16ccitt s) = true.
Proof.
  split.
  - apply crc16ccitt_length.
  - rewrite crc16ccitt_hex4. apply hex4_upper_hex.
Qed.

(** C4. On every string whose code units lie in 0..255, [crc16ccitt] is the
    CRC-16/CCITT-FALSE reference: a 16-bit register initialised to 0xFFFF,
    each code unit XORed into the high byte, eight shift steps with the
    conditional XOR of 0x1021 when bit 15 was set, the register masked to 16
    bits after each step, and the result written as four uppercase
    hexadecimal digits. *)
Theorem crc16ccitt_refines_reference (s : jsstring) :
  Forall (fun c => 0 <= c < 256) s ->
  crc16ccitt s = crc16_ccitt_false s.
Proof.
  intros Hs. unfold crc16_ccitt_false.
  rewrite crc16ccitt_hex4, (crc_register_ref s Hs). reflexivity.
Qed.

Lemma crc16ccitt_refines_reference_witness :
  Forall (fun c => 0 <= c < 256) (lit "123456789") /\
  crc16ccitt (lit "123456789") = crc16_ccitt_false (lit "123456789") /\
  crc16_ccitt_false (lit "123456789") = lit "29B1".
Proof.
  assert (H : Forall (fun c => 0 <= c < 256) (lit "123456789")).
  { cbn [lit]. repeat constructor; vm_compute; discriminate. }
  split; [exact H|]. split.
  - apply (crc16ccitt_refines_reference (lit "123456789") H).
  - vm_compute. reflexivity.
Defined.

(** C3. For every input that passes validation, the last four characters of
    the payload are [crc16ccitt] of the payload without its last four
    characters, and that checked prefix ends with the header [6304]. *)
Theorem checksum_covers_prefix (paymentType : PaymentType)
    (number accountNumber businessName : jsstring) :
  validateNumber paymentType number = true ->
  let payload := generateQRValue paymentType number accountNumber businessName in
  slice_last 4 payload = crc16ccitt (slice_drop_last 4 payload) /\
  slice_last 4 (slice_drop_last 4 payload) = lit "6304" /\
  payload = slice_drop_last 4 payload ++ slice_last 4 payload.
Proof.
  intros Hv payload. unfold payload.
  rewrite (generateQRValue_valid _ _ _ _ Hv).
  set (q := qrText_before_crc paymentType (formatNumber paymentType number)
              accountNumber businessName).
  destruct (slice_app 4 q (crc16ccitt q) (crc16ccitt_length q)) as [Hd Hl].
  rewrite Hd, Hl. repeat split.
  unfold q. rewrite qrText_fields.
  apply (slice_app 4 _ (lit "6304")). reflexivity.
Qed.

Lemma checksum_covers_prefix_witness :
  validateNumber till (lit "12345") = true /\
  (let payload := generateQRValue till (lit "12345") (lit "") (lit "Duka") in
   slice_last 4 payload = crc16ccitt (slice_drop_last 4 payload) /\
   slice_last 4 (slice_drop_last 4 payload) = lit "6304" /\
   payload = slice_drop_last 4 payload ++ slice_last 4 payload).
Proof.
  assert (H : validateNumber till (lit "12345") = true) by reflexivity.
  split; [exact H|].
  exact (checksum_covers_prefix till (lit "12345") (lit "") (lit "Duka") H).
Defined.

(** C5. The empty string is rejected for every payment type; for paybill
    "123456" is accepted and "12345" rejected; for till "12345" and "123456"
    are accepted and "1234" rejected; for phone "0712345678", "254712345678"
    and "712345678" are accepted and "0812345678" rejected. *)
Theorem validateNumber_examples :
  (forall paymentType, validateNumber paymentType (lit "") = false) /\
  validateNumber paybill (lit "123456") = true /\
  validateNumber paybill (lit "12345") = false /\
  validateNumber till (lit "12345") = true /\
  validateNumber till (lit "123456") = true /\
  validateNumber till (lit "1234") = false /\
  validateNumber phone (lit "0712345678") = true /\
  validateNumber phone (lit "254712345678") = true /\
  validateNumber phone (lit "712345678") = true /\
  validateNumber phone (lit "0812345678") = false.
Proof.
  split; [intros []; reflexivity|].
  do 8 (split; [vm_compute; reflexivity|]).
  vm_compute. reflexivity.
Qed.

(** C6. Phone-number normalisation is idempotent on every accepted phone
    number, and the three accepted forms of one subscriber number (with
    [254], with [0], bare) have the same [254]-prefixed normal form. *)
Theorem formatNumber_phone_normal_form (x : jsstring) :
  validateNumber phone x = true ->
  formatNumber phone (formatNumber phone x) = formatNumber phone x /\
  exists sub,
    is_subscriber sub = true /\
    (cleaned_of x = lit "254" ++ sub \/ cleaned_of x = lit "0" ++ sub
     \/ cleaned_of x = sub) /\
    formatNumber phone x = lit "254" ++ sub /\
    formatNumber phone (lit "254" ++ sub) = lit "254" ++ sub /\
    formatNumber phone (lit "0" ++ sub) = lit "254" ++ sub /\
    formatNumber phone sub = lit "254" ++ sub.
Proof.
  intros Hv. split; [apply formatNumber_idempotent|].
  rewrite validateNumber_pattern in Hv.
  destruct (pattern_ok_phone_forms _ Hv) as (sub & Hsub & Hform).
  destruct (formatNumber_phone_forms sub Hsub) as (F254 & F0 & Fbare).
  exists sub. repeat split; try assumption.
  assert (Hclean : formatNumber phone x = formatNumber phone (cleaned_of x)).
  { unfold formatNumber. rewrite cleaned_of_idempotent. reflexivity. }
  rewrite Hclean.
  destruct Hform as [-> | [-> | ->]]; assumption.
Qed.

Lemma formatNumber_phone_normal_form_witness :
  validateNumber phone (lit "0712 345-678") = true /\
  (formatNumber phone (formatNumber phone (lit "0712 345-678")) =
     formatNumber phone (lit "0712 345-678") /\
   exists sub,
     is_subscriber sub = true /\
     (cleaned_of (lit "0712 345-678") = lit "254" ++ sub
      \/ cleaned_of (lit "0712 345-678") = lit "0" ++ sub
      \/ cleaned_of (lit "0712 345-678") = sub) /\
     formatNumber phone (lit "0712 345-678") = lit "254" ++ sub /\
     formatNumber phone (lit "254" ++ sub) = lit "254" ++ sub /\
     formatNumber phone (lit "0" ++ sub) = lit "254" ++ sub /\
     formatNumber phone sub = lit "254" ++ sub).
Proof.
  assert (H : validateNumber phone (lit "0712 345-678") = true) by reflexivity.
  split; [exact H|].
  exact (formatNumber_phone_normal_form (lit "0712 345-678") H).
Defined.

(** C7. The builder returns the empty, no-payload result exactly when the
    number is empty or its digits fail the pattern of the payment type; on
    every other input it returns a non-empty payload; and the [try] block
    always completes by returning, never by throwing. *)
Theorem generateQRValue_fails_iff_invalid (paymentType : PaymentType)
    (number accountNumber businessName : jsstring) :
  (generateQRValue paymentType number accountNumber businessName = lit "" <->
     number = lit "" \/ pattern_ok paymentType (cleaned_of number) = false) /\
  validateNumber paymentType number = pattern_ok paymentType (cleaned_of number) /\
  generateQRValue_try paymentType number accountNumber businessName =
    Return (generateQRValue paymentType number accountNumber businessName).
Proof.
  pose proof (validateNumber_pattern paymentType number) as Hpat.
  destruct (validateNumber paymentType number) eqn:Hv.
  - split; [|split; [exact Hpat|]].
    + rewrite (generateQRValue_valid _ _ _ _ Hv).
      destruct (qrText_before_crc_starts paymentType
                  (formatNumber paymentType number) accountNumber businessName)
        as [rest ->].
      split.
      * cbn [lit app]. discriminate.
      * intros [-> | Hbad]; [discriminate Hv|].
        rewrite Hbad in Hpat. discriminate Hpat.
    + rewrite (generateQRValue_try_valid _ _ _ _ Hv).
      rewrite (generateQRValue_valid _ _ _ _ Hv). reflexivity.
  - split; [|split; [exact Hpat|]].
    + rewrite (generateQRValue_invalid _ _ _ _ Hv).
      split; [|reflexivity]. intros _. right. symmetry. exact Hpat.
    + rewrite (generateQRValue_try_invalid _ _ _ _ Hv).
      rewrite (generateQRValue_invalid _ _ _ _ Hv). reflexivity.
Qed.

(** C9. The payload is a function of the four inputs only: two component
    states that agree on payment type, number, account number and business
    name give the same result, payload or failure, whatever else they hold. *)
Theorem qrValue_deterministic (st1 st2 : State) :
  paymentType st1 = paymentType st2 ->
  number st1 = number st2 ->
  accountNumber st1 = accountNumber st2 ->
  businessName st1 = businessName st2 ->
  qrValue st1 = qrValue st2.
Proof.
  intros Ht Hn Ha Hb. unfold qrValue. rewrite Ht, Hn, Ha, Hb. reflexivity.
Qed.

Lemma qrValue_deterministic_witness :
  qrValue (mkState paybill (lit "123456") (lit "00100") (lit "Acme") None) =
  qrValue (mkState paybill (lit "123456") (lit "00100") (lit "Acme")
             (Some (lit "Error generating QR code"))).
Proof.
  apply (qrValue_deterministic
           (mkState paybill (lit "123456") (lit "00100") (lit "Acme") None)
           (mkState paybill (lit "123456") (lit "00100") (lit "Acme")
              (Some (lit "Error generating QR code"))));
    reflexivity.
Defined.

(** C10. For every valid paybill number, a business name or account number
    longer than 99 characters is still emitted in full, behind a length of
    three or more decimal digits that reads as its character count; the
    builder returns a payload and neither truncates nor rejects the field. *)
Theorem overlong_fields_pass_through (number accountNumber businessName : jsstring) :
  validateNumber paybill number = true ->
  let payload := generateQRValue paybill number accountNumber businessName in
  payload <> lit "" /\
  ((99 < length businessName)%nat ->
     (exists pre checksum,
        payload = pre ++ lit "59" ++ length_toString businessName
                    ++ businessName ++ lit "6304" ++ checksum) /\
     (3 <= length (length_toString businessName))%nat /\
     all_digits (length_toString businessName) = true /\
     decimal_value (length_toString businessName) =
       Z.of_nat (length businessName)) /\
  ((99 < length accountNumber)%nat ->
     (exists pre post,
        payload = pre ++ lit "02" ++ length_toString accountNumber
                    ++ accountNumber ++ post) /\
     (3 <= length (length_toString accountNumber))%nat /\
     all_digits (length_toString accountNumber) = true /\
     decimal_value (length_toString accountNumber) =
       Z.of_nat (length accountNumber)).
Proof.
  intros Hv payload. unfold payload.
  rewrite (generateQRValue_valid _ _ _ _ Hv).
  set (fn := formatNumber paybill number).
  split; [|split].
  - destruct (qrText_before_crc_starts paybill fn accountNumber businessName)
      as [rest ->].
    cbn [lit app]. discriminate.
  - intros Hlong.
    destruct (length_field_overlong businessName Hlong) as (Hf & H3 & Hd & Hval).
    split; [|repeat split; assumption].
    set (crc := crc16ccitt (qrText_before_crc paybill fn accountNumber businessName)).
    clearbody crc.
    unfold qrText_before_crc. cbv zeta.
    destruct businessName as [|b0 bs]; [cbn [length] in Hlong; lia|].
    cbn [truthy]. rewrite Hf.
    exists (lit "000201" ++ lit "0102" ++ lit "26"
              ++ length_field (merchantInfo_of paybill fn accountNumber)
              ++ merchantInfo_of paybill fn accountNumber
              ++ lit "5303KES" ++ lit "5802KE").
    exists crc. rewrite <- !app_assoc. reflexivity.
  - intros Hlong.
    destruct (length_field_overlong accountNumber Hlong) as (Hf & H3 & Hd & Hval).
    split; [|repeat split; assumption].
    set (crc := crc16ccitt (qrText_before_crc paybill fn accountNumber businessName)).
    clearbody crc.
    unfold qrText_before_crc. cbv zeta.
    set (len26 := length_field (merchantInfo_of paybill fn accountNumber)).
    clearbody len26.
    unfold merchantInfo_of. cbv zeta.
    destruct accountNumber as [|a0 acc']; [cbn [length] in Hlong; lia|].
    cbn [truthy]. rewrite Hf.
    exists (lit "000201" ++ lit "0102" ++ lit "26" ++ len26
              ++ lit "00" ++ lit "14" ++ lit "A000000677010111"
              ++ lit "01" ++ length_field fn ++ fn).
    exists (lit "5303KES" ++ lit "5802KE"
              ++ (if truthy businessName
                  then lit "59" ++ length_field businessName ++ businessName
                  else [])
              ++ lit "6304" ++ crc).
    destruct (truthy businessName); rewrite <- !app_assoc; reflexivity.
Qed.

Lemma overlong_fields_pass_through_witness :
  validateNumber paybill (lit "123456") = true /\
  (99 < length hundred_As)%nat /\
  length_toString hundred_As = lit "100" /\
  (let payload :=
     generateQRValue paybill (lit "123456") (lit "") hundred_As in
   payload <> lit "" /\
   ((99 < length hundred_As)%nat ->
      (exists pre checksum,
         payload = pre ++ lit "59" ++ length_toString hundred_As
                     ++ hundred_As ++ lit "6304" ++ checksum) /\
      (3 <= length (length_toString hundred_As))%nat /\
      all_digits (length_toString hundred_As) = true /\
      decimal_value (length_toString hundred_As) =
        Z.of_nat (length hundred_As)) /\
   ((99 < length (lit ""))%nat ->
      (exists pre post,
         payload = pre ++ lit "02" ++ length_toString (lit "")
                     ++ lit "" ++ post) /\
      (3 <= length (length_toString (lit "")))%nat /\
      all_digits (length_toString (lit "")) = true /\
      decimal_value (length_toString (lit "")) =
        Z.of_nat (length (lit "")))).
Proof.
  assert (H : validateNumber paybill (lit "123456") = true) by reflexivity.
  split; [exact H|].
  split; [unfold hundred_As; rewrite repeat_length; lia|].
  split; [vm_compute; reflexivity|].
  exact (overlong_fields_pass_through (lit "123456") (lit "") hundred_As H).
Defined.

(** The fields of a payload, in the order they are emitted. *)
Lemma generateQRValue_emitted_fields (paymentType : PaymentType)
    (number accountNumber businessName : jsstring) :
  validateNumber paymentType number = true ->
  exists outer nested,
    emitted_fields paymentType number accountNumber businessName =
      outer ++ nested /\
    generateQRValue paymentType number accountNumber businessName =
      emit_all outer /\
    merchantInfo_of paymentType (formatNumber paymentType number) accountNumber =
      emit_all nested.
Proof.
  intros Hv.
  exists (body_fields paymentType (formatNumber paymentType number)
            accountNumber businessName
          ++ [checksum_field
                (crc16ccitt
                   (qrText_before_crc paymentType
                      (formatNumber paymentType number) accountNumber
                      businessName))]).
  exists (merchant_fields paymentType (formatNumber paymentType number)
            accountNumber).
  split; [|split].
  - unfold emitted_fields. cbv zeta. rewrite <- app_assoc. reflexivity.
  - rewrite (generateQRValue_fields _ _ _ _ Hv), emit_all_app, emit_all_cons.
    unfold emit_all at 3. cbn [map concat]. rewrite app_nil_r. reflexivity.
  - apply merchantInfo_fields.
Qed.

(** C1, as stated, fails: with a 100-character business name the payload is
    produced and its merchant-name field declares the length [100], which is
    not a two-digit length. *)
Lemma two_digit_lengths_counterexample :
  validateNumber paybill (lit "123456") = true /\
  generateQRValue paybill (lit "123456") (lit "") hundred_As <> lit "" /\
  In (mkField (lit "59") (lit "100") hundred_As)
     (emitted_fields paybill (lit "123456") (lit "") hundred_As) /\
  two_digit_length (mkField (lit "59") (lit "100") hundred_As) = false /\
  forallb two_digit_length
    (emitted_fields paybill (lit "123456") (lit "") hundred_As) = false.
Proof.
  split; [reflexivity|].
  split; [vm_compute; discriminate|].
  split; [|split; vm_compute; reflexivity].
  unfold emitted_fields, body_fields. cbv zeta.
  apply in_or_app. left. apply in_or_app. right.
  vm_compute. left. reflexivity.
Qed.

Lemma emit_account_fields (paymentType : PaymentType) (accountNumber : jsstring) :
  emit_all (account_fields paymentType accountNumber) =
    match paymentType with
    | paybill =>
        if truthy accountNumber then tlv (lit "02") accountNumber else lit ""
    | _ => lit ""
    end.
Proof.
  unfold account_fields.
  destruct paymentType; [destruct (truthy accountNumber)| |];
    try reflexivity.
  unfold emit_all. cbn [map concat]. apply app_nil_r.
Qed.

Lemma emit_name_fields (businessName : jsstring) :
  emit_all (name_fields businessName) =
    if truthy businessName then tlv (lit "59") businessName else lit "".
Proof.
  unfold name_fields. destruct (truthy businessName); [|reflexivity].
  unfold emit_all. cbn [map concat]. apply app_nil_r.
Qed.

(** C1, amended. For every valid input the payload is the payload-format
    field, the point-of-initiation text, the merchant template 26, the
    currency and country fields, the merchant name when there is one and the
    checksum field; the template holds the GUID text, the number sub-field
    and, for paybill, the account sub-field when there is one.  Every field
    written here with [tlv] carries the length the source computes for its
    value: made of decimal digits, reading as the character count of the
    value, at least two digits long and exactly two when the value has at
    most 99 characters. *)
Theorem tlv_computed_lengths (paymentType : PaymentType)
    (number accountNumber businessName : jsstring) :
  validateNumber paymentType number = true ->
  (exists initiation guid checksum : jsstring,
     generateQRValue paymentType number accountNumber businessName =
       tlv (lit "00") (lit "01") ++ initiation
       ++ tlv (lit "26")
            (guid
             ++ tlv (number_tag paymentType) (formatNumber paymentType number)
             ++ match paymentType with
                | paybill =>
                    if truthy accountNumber then tlv (lit "02") accountNumber
                    else lit ""
                | _ => lit ""
                end)
       ++ tlv (lit "53") (lit "KES") ++ tlv (lit "58") (lit "KE")
       ++ (if truthy businessName then tlv (lit "59") businessName else lit "")
       ++ tlv (lit "63") checksum /\
     length checksum = 4%nat) /\
  (forall t v, tlv t v = t ++ length_field v ++ v) /\
  (forall v, declares_length (length_field v) v).
Proof.
  intros Hv.
  split; [|split; [reflexivity|exact length_field_declares]].
  exists (lit "0102"), (lit "0014A000000677010111").
  exists (crc16ccitt
            (qrText_before_crc paymentType (formatNumber paymentType number)
               accountNumber businessName)).
  split; [|apply crc16ccitt_length].
  rewrite (tlv_checksum _ (crc16ccitt_length _)).
  rewrite (generateQRValue_fields _ _ _ _ Hv), emit_checksum_field.
  unfold body_fields. rewrite emit_all_app.
  rewrite merchantInfo_fields. unfold merchant_fields. cbn [app].
  rewrite !emit_all_cons.
  rewrite emit_account_fields, emit_name_fields.
  change (emit_all []) with (@nil Z). rewrite app_nil_r.
  change (emit guid_field) with (lit "0014A000000677010111").
  change (emit (literal_field (lit "0102"))) with (lit "0102").
  replace (emit (literal_field (lit "000201"))) with (tlv (lit "00") (lit "01"))
    by (vm_compute; reflexivity).
  replace (emit (literal_field (lit "5303KES")))
    with (tlv (lit "53") (lit "KES")) by (vm_compute; reflexivity).
  replace (emit (literal_field (lit "5802KE")))
    with (tlv (lit "58") (lit "KE")) by (vm_compute; reflexivity).
  fold (tlv (number_tag paymentType) (formatNumber paymentType number)).
  match goal with
  | |- context [emit (computed_field (lit "26") ?m)] =>
      fold (tlv (lit "26") m)
  end.
  rewrite <- !app_assoc. reflexivity.
Qed.

Lemma tlv_computed_lengths_witness :
  validateNumber paybill (lit "123456") = true /\
  ((exists initiation guid checksum : jsstring,
      generateQRValue paybill (lit "123456") (lit "00100") (lit "Acme") =
        tlv (lit "00") (lit "01") ++ initiation
        ++ tlv (lit "26")
             (guid
              ++ tlv (number_tag paybill) (formatNumber paybill (lit "123456"))
              ++ (if truthy (lit "00100") then tlv (lit "02") (lit "00100")
                  else lit ""))
        ++ tlv (lit "53") (lit "KES") ++ tlv (lit "58") (lit "KE")
        ++ (if truthy (lit "Acme") then tlv (lit "59") (lit "Acme") else lit "")
        ++ tlv (lit "63") checksum /\
      length checksum = 4%nat) /\
   (forall t v, tlv t v = t ++ length_field v ++ v) /\
   (forall v, declares_length (length_field v) v)).
Proof.
  assert (H : validateNumber paybill (lit "123456") = true) by reflexivity.
  split; [exact H|].
  exact (tlv_computed_lengths paybill (lit "123456") (lit "00100") (lit "Acme") H).
Defined.

(** The payload of the end-to-end scenario, evaluated. *)
Lemma scenario_payload_evaluated :
  generateQRValue paybill (lit "123456") (lit "00100") (lit "Acme") =
    lit "00020101022639"
    ++ lit "0014A0000006770101110106123456020500100"
    ++ lit "5303KES5802KE5904Acme6304" ++ lit "E1A0".
Proof. vm_compute. reflexivity. Qed.

(** C2, as stated, fails: for paybill 123456, account 00100 and name Acme
    the payload does not contain [2619] followed by the nested fields; the
    template is 39 characters long. *)
Lemma scenario_2619_absent :
  includes
    (generateQRValue paybill (lit "123456") (lit "00100") (lit "Acme"))
    (lit "2619" ++ lit "0014A0000006770101110106123456020500100") = false /\
  length (lit "0014A0000006770101110106123456020500100") = 39%nat.
Proof. split; vm_compute; reflexivity. Qed.

(** C2, amended. For paybill 123456, account 00100 and name Acme the payload
    begins with [000201], contains [2639] immediately followed by
    [0014A0000006770101110106123456020500100], then
    [5303KES5802KE5904Acme6304], then exactly four hexadecimal characters,
    which are the checksum recomputed over the text that ends with [6304]. *)
Theorem scenario_payload_shape :
  let payload :=
    generateQRValue paybill (lit "123456") (lit "00100") (lit "Acme") in
  startsWith payload (lit "000201") = true /\
  (exists pre,
     payload =
       pre ++ lit "2639" ++ lit "0014A0000006770101110106123456020500100"
       ++ lit "5303KES5802KE5904Acme6304" ++ slice_last 4 payload) /\
  length (slice_last 4 payload) = 4%nat /\
  forallb isUpperHex (slice_last 4 payload) = true /\
  slice_last 4 payload = crc16ccitt (slice_drop_last 4 payload) /\
  slice_last 4 (slice_drop_last 4 payload) = lit "6304".
Proof.
  intros payload. unfold payload.
  split; [vm_compute; reflexivity|].
  split; [exists (lit "0002010102"); vm_compute; reflexivity|].
  split; [vm_compute; reflexivity|].
  split; [vm_compute; reflexivity|].
  split; vm_compute; reflexivity.
Qed.

(** * Further properties of the checksum *)

(** ** A bit step on a register that is wider than 16 bits *)

Lemma bit_step_ref_wide (x : Z) :
  0 <= x < 2 ^ 30 -> bit_step x = ref_bit_step x.
Proof.
  change (2 ^ 30) with 1073741824. intros Hx.
  unfold bit_step, ref_bit_step, mask16, top_bit.
  rewrite bitand_mask16.
  assert (Htop : truthy_num (bitand x 0x8000) = Z.testbit x 15).
  { unfold bitand, truthy_num.
    rewrite (toInt32_small x), (toInt32_small 32768) by lia.
    rewrite land_bit15. destruct (Z.testbit x 15); reflexivity. }
  assert (Hshl : bitshl x 1 = 2 * x).
  { unfold bitshl. change (1 mod 32) with 1.
    rewrite (toInt32_small x) by lia.
    rewrite Z.shiftl_mul_pow2 by lia. change (2 ^ 1) with 2.
    rewrite toInt32_small by lia. lia. }
  rewrite Htop, Hshl.
  destruct (Z.testbit x 15).
  - unfold bitxor, polynomial.
    assert (Hl : 0 <= Z.lxor (2 * x) 4129 < 2 ^ 31).
    { apply lxor_below_pow2; change (2 ^ 31) with 2147483648; lia. }
    change (2 ^ 31) with 2147483648 in Hl.
    rewrite (toInt32_small (2 * x)), (toInt32_small 4129) by lia.
    rewrite !(toInt32_small (Z.lxor (2 * x) 4129)) by lia.
    reflexivity.
  - rewrite toInt32_small by lia. reflexivity.
Qed.

Lemma lxor_mod_pow2 (a b n : Z) :
  0 <= n -> Z.lxor a b mod 2 ^ n = Z.lxor (a mod 2 ^ n) (b mod 2 ^ n).
Proof.
  intros Hn. rewrite <- !Z.land_ones by exact Hn.
  apply Z.bits_inj'. intros k Hk.
  rewrite Z.lxor_spec, !Z.land_spec, Z.lxor_spec.
  destruct (Z.testbit (Z.ones n) k), (Z.testbit a k), (Z.testbit b k);
    reflexivity.
Qed.

(** Only the low 16 bits of the register enter a bit step. *)
Lemma ref_bit_step_low (x : Z) :
  0 <= x -> ref_bit_step x = ref_bit_step (x mod 65536).
Proof.
  intros Hx. unfold ref_bit_step, mask16, top_bit.
  change 65536 with (2 ^ 16).
  rewrite (Z.mod_pow2_bits_low x 16 15) by lia.
  destruct (Z.testbit x 15).
  - rewrite (lxor_mod_pow2 (2 * x) 4129 16) by lia.
    rewrite (lxor_mod_pow2 (2 * (x mod 2 ^ 16)) 4129 16) by lia.
    rewrite (Z.mul_mod_idemp_r 2 x (2 ^ 16)) by lia. reflexivity.
  - rewrite (Z.mul_mod_idemp_r 2 x (2 ^ 16)) by lia. reflexivity.
Qed.

Lemma iter_bit_step_8 (x : Z) :
  Nat.iter 8 bit_step x = Nat.iter 7 bit_step (bit_step x).
Proof. exact (Nat.iter_succ_r 7 Z bit_step x). Qed.

(** The high byte of a code unit does not reach the register. *)
Lemma char_step_low_byte (crc c : Z) :
  is16bit crc -> 0 <= c < 65536 -> char_step crc c = char_step crc (c mod 256).
Proof.
  intros Hcrc Hc. unfold char_step. rewrite !iter_bit_step_8. f_equal.
  assert (Hlow : 0 <= c mod 256 < 256) by (apply Z.mod_pos_bound; lia).
  destruct (high_byte_xor crc (c mod 256) Hcrc Hlow) as [-> Hx'].
  assert (Hwide : 0 <= Z.lxor crc (c * 256) < 2 ^ 24).
  { unfold is16bit in Hcrc.
    apply lxor_below_pow2; change (2 ^ 24) with 16777216; lia. }
  change (2 ^ 24) with 16777216 in Hwide.
  assert (Hxor : bitxor crc (bitshl c 8) = Z.lxor crc (c * 256)).
  { unfold is16bit in Hcrc. unfold bitxor, bitshl. change (8 mod 32) with 8.
    rewrite (toInt32_small c) by lia.
    rewrite Z.shiftl_mul_pow2 by lia. change (2 ^ 8) with 256.
    rewrite !(toInt32_small (c * 256)) by lia.
    rewrite (toInt32_small crc) by lia.
    apply toInt32_small. lia. }
  rewrite Hxor.
  rewrite bit_step_ref_wide by (change (2 ^ 30) with 1073741824; lia).
  rewrite (bit_step_ref _ Hx').
  rewrite ref_bit_step_low by lia. f_equal.
  change 65536 with (2 ^ 16). rewrite lxor_mod_pow2 by lia.
  change (2 ^ 16) with 65536.
  unfold is16bit in Hcrc. rewrite (Z.mod_small crc 65536) by lia.
  f_equal. change 65536 with (256 * 256).
  rewrite Z.mul_mod_distr_r by lia. reflexivity.
Qed.

Lemma fold_left_map_arg (A B C : Type) (f : A -> B -> A) (g : C -> B)
    (l : list C) (a : A) :
  fold_left f (map g l) a = fold_left (fun x c => f x (g c)) l a.
Proof.
  revert a. induction l as [|c rest IH]; intros a; [reflexivity|].
  cbn [map fold_left]. apply IH.
Qed.

Lemma crc_register_low_bytes (s : jsstring) :
  Forall (fun c => 0 <= c < 65536) s ->
  crc_register s = crc_register (low_bytes s).
Proof.
  intros Hs. unfold crc_register, low_bytes.
  rewrite fold_left_map_arg.
  apply (fold_left_agree Z Z is16bit (fun c => 0 <= c < 65536)).
  - exact char_step_low_byte.
  - exact char_step_range.
  - exact Hs.
  - unfold is16bit. lia.
Qed.

(** X1. The checksum of a string of UTF-16 code units is the checksum of
    their low bytes: the high byte of a code unit above 255 is dropped, it
    is not encoded. *)
Theorem crc16ccitt_low_bytes (s : jsstring) :
  Forall (fun c => 0 <= c < 65536) s ->
  crc16ccitt s = crc16ccitt (low_bytes s).
Proof.
  intros Hs. unfold crc16ccitt. rewrite (crc_register_low_bytes s Hs).
  reflexivity.
Qed.

Lemma crc16ccitt_low_bytes_witness :
  Forall (fun c => 0 <= c < 65536) [321; 8364] /\
  low_bytes [321; 8364] = lit "A" ++ [172] /\
  crc16ccitt [321; 8364] = crc16ccitt (low_bytes [321; 8364]).
Proof.
  assert (H : Forall (fun c => 0 <= c < 65536) [321; 8364]).
  { repeat constructor; vm_compute; discriminate. }
  split; [exact H|]. split; [reflexivity|].
  exact (crc16ccitt_low_bytes [321; 8364] H).
Defined.

(** ** The register steps lose nothing *)

Lemma ref_bit_step_range (r : Z) : is16bit (ref_bit_step r).
Proof. unfold ref_bit_step, mask16, is16bit. apply Z.mod_pos_bound. lia. Qed.

Lemma lxor_cancel_r (a b c : Z) : Z.lxor a c = Z.lxor b c -> a = b.
Proof.
  intros H.
  assert (Ha : a = Z.lxor (Z.lxor a c) c)
    by (rewrite Z.lxor_assoc, Z.lxor_nilpotent, Z.lxor_0_r; reflexivity).
  assert (Hb : b = Z.lxor (Z.lxor b c) c)
    by (rewrite Z.lxor_assoc, Z.lxor_nilpotent, Z.lxor_0_r; reflexivity).
  rewrite Ha, Hb, H. reflexivity.
Qed.

Lemma bit15_of_16bit (r : Z) :
  is16bit r -> if Z.testbit r 15 then 32768 <= r else r < 32768.
Proof.
  unfold is16bit. intros Hr.
  destruct (Z.testbit r 15) eqn:E.
  - apply Z.testbit_true in E; [|lia]. change (2 ^ 15) with 32768 in E.
    destruct (Z_lt_le_dec r 32768) as [Hlt|Hge]; [|exact Hge].
    rewrite Z.div_small in E by lia. discriminate E.
  - destruct (Z_lt_le_dec r 32768) as [Hlt|Hge]; [exact Hlt|].
    assert (Ht : Z.testbit r 15 = true).
    { apply Z.testbit_true; [lia|]. change (2 ^ 15) with 32768.
      assert (Hq : r / 32768 = 1).
      { symmetry. apply (Z.div_unique r 32768 1 (r - 32768)); lia. }
      rewrite Hq. reflexivity. }
    rewrite Ht in E. discriminate E.
Qed.

(** A bit step without the remainder. *)
Lemma ref_bit_step_cases (r : Z) :
  is16bit r ->
  ref_bit_step r =
    if Z.testbit r 15 then Z.lxor (2 * (r - 32768)) 4129 else 2 * r.
Proof.
  intros Hr. pose proof (bit15_of_16bit r Hr) as Hbit.
  unfold is16bit in Hr. unfold ref_bit_step, mask16, top_bit.
  destruct (Z.testbit r 15).
  - change 65536 with (2 ^ 16). rewrite lxor_mod_pow2 by lia.
    change (2 ^ 16) with 65536.
    replace ((2 * r) mod 65536) with (2 * (r - 32768)).
    + reflexivity.
    + apply (Z.mod_unique (2 * r) 65536 1); lia.
  - apply Z.mod_small. lia.
Qed.

Lemma odd_lxor_poly (m : Z) : Z.odd (Z.lxor (2 * m) 4129) = true.
Proof.
  rewrite <- Z.bit0_odd, Z.lxor_spec, !Z.bit0_odd.
  rewrite Z.odd_mul. reflexivity.
Qed.

Lemma ref_bit_step_injective (r r' : Z) :
  is16bit r -> is16bit r' -> ref_bit_step r = ref_bit_step r' -> r = r'.
Proof.
  intros Hr Hr'.
  rewrite (ref_bit_step_cases r Hr), (ref_bit_step_cases r' Hr').
  destruct (Z.testbit r 15), (Z.testbit r' 15); intros H.
  - apply lxor_cancel_r in H. lia.
  - apply (f_equal Z.odd) in H.
    rewrite odd_lxor_poly, Z.odd_mul in H. discriminate H.
  - apply (f_equal Z.odd) in H.
    rewrite odd_lxor_poly, Z.odd_mul in H. discriminate H.
  - lia.
Qed.

Section Injective.

Variable A : Type.
Variable Inv : A -> Prop.
Variable f : A -> A.
Hypothesis f_keeps : forall x, Inv x -> Inv (f x).
Hypothesis f_injective : forall x y, Inv x -> Inv y -> f x = f y -> x = y.

Lemma iter_keeps (n : nat) (x : A) : Inv x -> Inv (Nat.iter n f x).
Proof.
  intros Hx. induction n as [|m IH]; [exact Hx|].
  rewrite Nat.iter_succ. apply f_keeps, IH.
Qed.

Lemma iter_injective (n : nat) (x y : A) :
  Inv x -> Inv y -> Nat.iter n f x = Nat.iter n f y -> x = y.
Proof.
  intros Hx Hy. induction n as [|m IH]; intros H; [exact H|].
  rewrite !Nat.iter_succ in H.
  apply IH. apply f_injective; [apply iter_keeps, Hx|apply iter_keeps, Hy|exact H].
Qed.

End Injective.

Lemma ref_byte_step_range (r b : Z) : is16bit (ref_byte_step r b).
Proof.
  unfold ref_byte_step.
  apply (iter_establishes Z is16bit ref_bit_step);
    [exact ref_bit_step_range|lia].
Qed.

Lemma ref_byte_step_injective (r r' b b' : Z) :
  is16bit r -> is16bit r' -> 0 <= b < 256 -> 0 <= b' < 256 ->
  ref_byte_step r b = ref_byte_step r' b' ->
  Z.lxor r (b * 256) = Z.lxor r' (b' * 256).
Proof.
  intros Hr Hr' Hb Hb' H. unfold ref_byte_step in H.
  assert (Hx : forall x y, is16bit x -> 0 <= y < 256 -> is16bit (Z.lxor x (y * 256))).
  { unfold is16bit. intros x y Hx Hy. change 65536 with (2 ^ 16).
    apply lxor_below_pow2; change (2 ^ 16) with 65536; lia. }
  apply (iter_injective Z is16bit ref_bit_step) with (n := 8%nat).
  - intros x _. apply ref_bit_step_range.
  - exact ref_bit_step_injective.
  - apply Hx; assumption.
  - apply Hx; assumption.
  - exact H.
Qed.

Lemma ref_register_injective (l : list Z) (r r' : Z) :
  Forall (fun c => 0 <= c < 256) l -> is16bit r -> is16bit r' ->
  fold_left ref_byte_step l r = fold_left ref_byte_step l r' -> r = r'.
Proof.
  intros Hl. revert r r'.
  induction Hl as [|b rest Hb _ IH]; intros r r' Hr Hr' H; [exact H|].
  cbn [fold_left] in H.
  apply IH in H; try apply ref_byte_step_range.
  apply (ref_byte_step_injective r r' b b Hr Hr' Hb Hb) in H.
  apply (lxor_cancel_r r r' (b * 256) H).
Qed.

Lemma hex_upper_injective (d d' : Z) :
  0 <= d < 16 -> 0 <= d' < 16 -> hex_upper d = hex_upper d' -> d = d'.
Proof.
  unfold hex_upper. intros Hd Hd'.
  destruct (Z.ltb_spec d 10), (Z.ltb_spec d' 10); lia.
Qed.

Lemma hex4_injective (r r' : Z) :
  is16bit r -> is16bit r' -> hex4 r = hex4 r' -> r = r'.
Proof.
  unfold is16bit, hex4. intros Hr Hr' H. injection H as H3 H2 H1 H0.
  apply hex_upper_injective in H3, H2, H1, H0; try apply Z.mod_pos_bound; try lia.
  assert (Hdigits : forall x, 0 <= x < 65536 ->
            x = 4096 * (x / 4096 mod 16) + 256 * (x / 256 mod 16)
                + 16 * (x / 16 mod 16) + x mod 16).
  { intros x Hx.
    assert (E1 : x / 256 = x / 16 / 16) by (rewrite Z.div_div by lia; reflexivity).
    assert (E2 : x / 4096 = x / 256 / 16) by (rewrite Z.div_div by lia; reflexivity).
    pose proof (Z.div_mod x 16 ltac:(lia)) as D0.
    pose proof (Z.div_mod (x / 16) 16 ltac:(lia)) as D1.
    pose proof (Z.div_mod (x / 256) 16 ltac:(lia)) as D2.
    rewrite <- E1 in D1. rewrite <- E2 in D2.
    assert (0 <= x / 4096 < 16).
    { split; [apply Z.div_pos; lia|apply Z.div_lt_upper_bound; lia]. }
    rewrite (Z.mod_small (x / 4096) 16) by lia. lia. }
  rewrite (Hdigits r Hr), (Hdigits r' Hr'), H3, H2, H1, H0. reflexivity.
Qed.

Lemma low_bytes_are_bytes (s : jsstring) :
  Forall (fun c => 0 <= c < 256) (low_bytes s).
Proof.
  unfold low_bytes. apply Forall_forall. intros x Hx.
  apply in_map_iff in Hx as (c & <- & _). apply Z.mod_pos_bound. lia.
Qed.

(** X2. Replacing one character of a string by a character with another low
    byte always changes the checksum. *)
Theorem crc16ccitt_detects_substitution (a b : jsstring) (c c' : Z) :
  Forall (fun u => 0 <= u < 65536) a ->
  Forall (fun u => 0 <= u < 65536) b ->
  0 <= c < 65536 -> 0 <= c' < 65536 ->
  c mod 256 <> c' mod 256 ->
  crc16ccitt (a ++ c :: b) <> crc16ccitt (a ++ c' :: b).
Proof.
  intros Ha Hb Hc Hc' Hne Heq.
  rewrite !crc16ccitt_hex4 in Heq.
  apply hex4_injective in Heq; try apply crc_register_range.
  rewrite (crc_register_low_bytes (a ++ c :: b)) in Heq
    by (apply Forall_app; split; [exact Ha|constructor; assumption]).
  rewrite (crc_register_low_bytes (a ++ c' :: b)) in Heq
    by (apply Forall_app; split; [exact Ha|constructor; assumption]).
  rewrite !crc_register_ref in Heq by apply low_bytes_are_bytes.
  unfold ref_register, low_bytes in Heq.
  rewrite !map_app, !fold_left_app in Heq. cbn [map fold_left] in Heq.
  fold (low_bytes a) in Heq. fold (low_bytes b) in Heq.
  assert (Hra : is16bit (fold_left ref_byte_step (low_bytes a) 65535)).
  { apply (fold_left_preserves Z Z is16bit ref_byte_step);
      [exact ref_byte_step_range|unfold is16bit; lia]. }
  apply ref_register_injective in Heq;
    [|apply low_bytes_are_bytes|apply ref_byte_step_range
     |apply ref_byte_step_range].
  apply ref_byte_step_injective in Heq;
    [|exact Hra|exact Hra|apply Z.mod_pos_bound; lia|apply Z.mod_pos_bound; lia].
  rewrite (Z.lxor_comm _ (c mod 256 * 256)) in Heq.
  rewrite (Z.lxor_comm _ (c' mod 256 * 256)) in Heq.
  apply lxor_cancel_r in Heq. lia.
Qed.

Lemma crc16ccitt_detects_substitution_witness :
  Forall (fun u => 0 <= u < 65536) (lit "5904Ac") /\
  Forall (fun u => 0 <= u < 65536) (lit "e6304") /\
  0 <= 109 < 65536 /\ 0 <= 110 < 65536 /\ 109 mod 256 <> 110 mod 256 /\
  crc16ccitt (lit "5904Ac" ++ 109 :: lit "e6304")
    <> crc16ccitt (lit "5904Ac" ++ 110 :: lit "e6304").
Proof.
  assert (Ha : Forall (fun u => 0 <= u < 65536) (lit "5904Ac")).
  { cbn [lit]. repeat constructor; vm_compute; discriminate. }
  assert (Hb : Forall (fun u => 0 <= u < 65536) (lit "e6304")).
  { cbn [lit]. repeat constructor; vm_compute; discriminate. }
  assert (Hc : 0 <= 109 < 65536) by lia.
  assert (Hc' : 0 <= 110 < 65536) by lia.
  assert (Hne : 109 mod 256 <> 110 mod 256) by (vm_compute; discriminate).
  repeat (split; [assumption|]).
  exact (crc16ccitt_detects_substitution
           (lit "5904Ac") (lit "e6304") 109 110 Ha Hb Hc Hc' Hne).
Defined.

(** * Further properties of validation and normalisation *)

Lemma formatNumber_of_cleaned (paymentType : PaymentType) (x : jsstring) :
  formatNumber paymentType (cleaned_of x) = formatNumber paymentType x.
Proof. unfold formatNumber. rewrite cleaned_of_idempotent. reflexivity. Qed.

Lemma formatNumber_all_digits (paymentType : PaymentType) (x : jsstring) :
  all_digits (formatNumber paymentType x) = true.
Proof.
  pose proof (cleaned_of_all_digits x) as Hd.
  unfold formatNumber. cbv zeta.
  destruct paymentType; try exact Hd.
  destruct (startsWith (cleaned_of x) (lit "254")); [exact Hd|].
  destruct (startsWith (cleaned_of x) (lit "0")).
  - apply all_digits_254, all_digits_tl, Hd.
  - destruct (length (cleaned_of x) =? 9)%nat; [apply all_digits_254|]; exact Hd.
Qed.

(** The phone pattern, by the first characters of the digits. *)
Lemma pattern_ok_phone_cases (s : jsstring) :
  pattern_ok phone s =
    if startsWith s (lit "254") then is_subscriber (skipn 3 s)
    else if startsWith s (lit "0") then is_subscriber (skipn 1 s)
    else is_subscriber s.
Proof.
  cbn [pattern_ok].
  replace (prefixed_subscriber (lit "") s) with (is_subscriber s) by reflexivity.
  unfold prefixed_subscriber.
  change (length (lit "254")) with 3%nat. change (length (lit "0")) with 1%nat.
  destruct (startsWith s (lit "254")) eqn:E254.
  - destruct (starts_254_excludes s E254) as [E0 Esub].
    rewrite E0, Esub. cbn [andb]. rewrite !orb_false_r. reflexivity.
  - cbn [andb orb]. destruct (startsWith s (lit "0")) eqn:E0.
    + rewrite (starts_0_excludes s E0). cbn [andb]. apply orb_false_r.
    + reflexivity.
Qed.

Lemma pattern_ok_formatNumber (paymentType : PaymentType) (x : jsstring) :
  pattern_ok paymentType (formatNumber paymentType x) =
    pattern_ok paymentType (cleaned_of x).
Proof.
  destruct paymentType; try reflexivity.
  rewrite !pattern_ok_phone_cases. unfold formatNumber. cbv zeta.
  set (c := cleaned_of x).
  destruct (startsWith c (lit "254")) eqn:E254.
  - rewrite E254. reflexivity.
  - destruct (startsWith c (lit "0")) eqn:E0.
    + change (startsWith (lit "254" ++ slice1 c) (lit "254")) with true.
      cbv iota. change (skipn 3 (lit "254" ++ slice1 c)) with (slice1 c).
      destruct c; reflexivity.
    + destruct (length c =? 9)%nat.
      * reflexivity.
      * rewrite E254, E0. reflexivity.
Qed.

(** The length of the number that a valid input puts into the payload. *)
Lemma valid_formatNumber_length (paymentType : PaymentType) (x : jsstring) :
  validateNumber paymentType x = true ->
  match paymentType with
  | paybill =>
      formatNumber paybill x = cleaned_of x /\ length (cleaned_of x) = 6%nat
  | till =>
      formatNumber till x = cleaned_of x /\
      (length (cleaned_of x) = 5%nat \/ length (cleaned_of x) = 6%nat)
  | phone =>
      exists sub, is_subscriber sub = true /\ length sub = 9%nat /\
        formatNumber phone x = lit "254" ++ sub
  end.
Proof.
  rewrite validateNumber_pattern. destruct paymentType; cbn [pattern_ok]; intros H.
  - apply andb_true_iff in H as [_ H]. apply Nat.eqb_eq in H.
    split; [reflexivity|exact H].
  - apply andb_true_iff in H as [_ H]. apply orb_true_iff in H.
    split; [reflexivity|].
    destruct H as [H|H]; apply Nat.eqb_eq in H; [left|right]; exact H.
  - destruct (pattern_ok_phone_forms _ H) as (sub & Hsub & Hform).
    destruct (formatNumber_phone_forms sub Hsub) as (F254 & F0 & Fbare).
    destruct (is_subscriber_shape sub Hsub) as (_ & Hlen & _).
    exists sub. split; [exact Hsub|]. split; [exact Hlen|].
    rewrite <- formatNumber_of_cleaned.
    destruct Hform as [-> | [-> | ->]]; assumption.
Qed.

(** X3. Only the digits of the number matter: two inputs with the same
    digits, whatever separators they carry, are validated alike, normalised
    alike and give the same payload. *)
Theorem separators_are_ignored (paymentType : PaymentType)
    (x y accountNumber businessName : jsstring) :
  cleaned_of x = cleaned_of y ->
  validateNumber paymentType x = validateNumber paymentType y /\
  formatNumber paymentType x = formatNumber paymentType y /\
  generateQRValue paymentType x accountNumber businessName =
    generateQRValue paymentType y accountNumber businessName.
Proof.
  intros Hxy.
  assert (Hv : validateNumber paymentType x = validateNumber paymentType y)
    by (rewrite !validateNumber_pattern, Hxy; reflexivity).
  assert (Hf : formatNumber paymentType x = formatNumber paymentType y)
    by (rewrite <- (formatNumber_of_cleaned _ x), Hxy;
        apply formatNumber_of_cleaned).
  split; [exact Hv|]. split; [exact Hf|].
  destruct (validateNumber paymentType y) eqn:Hy.
  - rewrite (generateQRValue_valid _ _ _ _ Hv), (generateQRValue_valid _ _ _ _ Hy).
    rewrite Hf. reflexivity.
  - rewrite (generateQRValue_invalid _ _ _ _ Hv),
      (generateQRValue_invalid _ _ _ _ Hy).
    reflexivity.
Qed.

Lemma separators_are_ignored_witness :
  cleaned_of (lit "+254 (712) 345-678") = cleaned_of (lit "254712345678") /\
  (validateNumber phone (lit "+254 (712) 345-678") =
     validateNumber phone (lit "254712345678") /\
   formatNumber phone (lit "+254 (712) 345-678") =
     formatNumber phone (lit "254712345678") /\
   generateQRValue phone (lit "+254 (712) 345-678") (lit "") (lit "Duka") =
     generateQRValue phone (lit "254712345678") (lit "") (lit "Duka")).
Proof.
  assert (H : cleaned_of (lit "+254 (712) 345-678") =
              cleaned_of (lit "254712345678")) by reflexivity.
  split; [exact H|].
  exact (separators_are_ignored phone (lit "+254 (712) 345-678")
           (lit "254712345678") (lit "") (lit "Duka") H).
Defined.

(** X4. The normalised number consists of decimal digits only, for every
    input and payment type, valid or not. *)
Theorem formatNumber_only_digits (paymentType : PaymentType) (x : jsstring) :
  all_digits (formatNumber paymentType x) = true /\
  cleaned_of (formatNumber paymentType x) = formatNumber paymentType x.
Proof.
  split; [apply formatNumber_all_digits|].
  apply cleaned_of_digits, formatNumber_all_digits.
Qed.

(** X5. The number a valid input puts into the payload: for paybill the six
    digits of the input, for till its five or six digits, for phone the
    twelve digits [2547] and eight more, whichever of the three forms was
    entered. *)
Theorem valid_number_emitted (paymentType : PaymentType) (x : jsstring) :
  validateNumber paymentType x = true ->
  all_digits (formatNumber paymentType x) = true /\
  match paymentType with
  | paybill =>
      formatNumber paybill x = cleaned_of x /\
      length (formatNumber paybill x) = 6%nat
  | till =>
      formatNumber till x = cleaned_of x /\
      (length (formatNumber till x) = 5%nat \/
       length (formatNumber till x) = 6%nat)
  | phone =>
      length (formatNumber phone x) = 12%nat /\
      startsWith (formatNumber phone x) (lit "2547") = true
  end.
Proof.
  intros Hv. split; [apply formatNumber_all_digits|].
  pose proof (valid_formatNumber_length paymentType x Hv) as Hshape.
  destruct paymentType.
  - destruct Hshape as [Hf Hl]. rewrite Hf. split; [reflexivity|exact Hl].
  - destruct Hshape as [Hf Hl]. rewrite Hf. split; [reflexivity|exact Hl].
  - destruct Hshape as (sub & Hsub & Hlen & ->).
    split.
    + rewrite length_app, Hlen. reflexivity.
    + destruct sub as [|c rest]; [discriminate Hsub|].
      cbn [is_subscriber] in Hsub. apply andb_true_iff in Hsub as [Hc _].
      apply Z.eqb_eq in Hc. subst c. reflexivity.
Qed.

Lemma valid_number_emitted_witness :
  validateNumber phone (lit "0712345678") = true /\
  (all_digits (formatNumber phone (lit "0712345678")) = true /\
   length (formatNumber phone (lit "0712345678")) = 12%nat /\
   startsWith (formatNumber phone (lit "0712345678")) (lit "2547") = true).
Proof.
  assert (H : validateNumber phone (lit "0712345678") = true) by reflexivity.
  split; [exact H|].
  exact (valid_number_emitted phone (lit "0712345678") H).
Defined.

(** X6. Normalisation neither makes an invalid number valid nor a valid one
    invalid: the normalised number passes validation exactly when the input
    does. *)
Theorem validateNumber_formatNumber (paymentType : PaymentType) (x : jsstring) :
  validateNumber paymentType (formatNumber paymentType x) =
    validateNumber paymentType x.
Proof.
  rewrite !validateNumber_pattern.
  rewrite (cleaned_of_digits _ (formatNumber_all_digits paymentType x)).
  apply pattern_ok_formatNumber.
Qed.

(** * Further properties of the payload *)

Lemma length_field_length (v : jsstring) :
  ((length v <= 99)%nat -> length (length_field v) = 2%nat) /\
  ((99 < length v)%nat -> (3 <= length (length_field v))%nat).
Proof.
  destruct (length_field_declares v) as (_ & _ & H2 & Hiff).
  split; intros H.
  - apply Hiff. exact H.
  - destruct (Nat.eq_dec (length (length_field v)) 2) as [E|E]; [|lia].
    apply Hiff in E. lia.
Qed.

Lemma merchantInfo_length (paymentType : PaymentType)
    (formattedNumber accountNumber : jsstring) :
  length (merchantInfo_of paymentType formattedNumber accountNumber) =
    (20 + (2 + length (length_field formattedNumber) + length formattedNumber)
     + match paymentType with
       | paybill =>
           if truthy accountNumber then
             2 + length (length_field accountNumber) + length accountNumber
           else 0
       | _ => 0
       end)%nat.
Proof.
  unfold merchantInfo_of. cbv zeta.
  destruct paymentType; [destruct (truthy accountNumber)| |];
    rewrite !length_app; cbn [lit length]; lia.
Qed.

(** X7. The template 26 of a valid paybill payload keeps a two-digit length
    exactly when the account number has at most 65 characters; for till and
    phone it always has one.  An account number of 66 to 99 characters has a
    two-digit length of its own and still makes the template overflow. *)
Theorem template_length_two_digits (paymentType : PaymentType)
    (number accountNumber : jsstring) :
  validateNumber paymentType number = true ->
  let merchantInfo :=
    merchantInfo_of paymentType (formatNumber paymentType number) accountNumber in
  (length (length_field merchantInfo) = 2%nat <->
     (paymentType = paybill -> (length accountNumber <= 65)%nat)) /\
  ((length accountNumber <= 99)%nat ->
     length merchantInfo =
       (24 + length (formatNumber paymentType number)
        + match paymentType with
          | paybill =>
              if truthy accountNumber then 4 + length accountNumber else 0
          | _ => 0
          end)%nat).
Proof.
  intros Hv merchantInfo.
  pose proof (merchantInfo_length paymentType (formatNumber paymentType number)
                accountNumber) as Hlen.
  fold merchantInfo in Hlen.
  pose proof (valid_formatNumber_length paymentType number Hv) as Hshape.
  destruct (length_field_length (formatNumber paymentType number)) as [Hfn _].
  destruct (length_field_length accountNumber) as [Hacc2 Hacc3].
  destruct (length_field_length merchantInfo) as [Hmi2 Hmi3].
  assert (Htruthy : truthy accountNumber = false -> length accountNumber = 0%nat)
    by (destruct accountNumber; [reflexivity|discriminate]).
  destruct paymentType.
  - destruct Hshape as [Hf Hl]. rewrite <- Hf in Hl.
    rewrite Hfn in Hlen by lia. rewrite Hl in Hlen.
    split.
    + split.
      * intros H2 _.
        destruct (Nat.le_gt_cases (length merchantInfo) 99) as [Hle|Hgt];
          [|specialize (Hmi3 Hgt); lia].
        destruct (truthy accountNumber) eqn:Et; [|specialize (Htruthy eq_refl); lia].
        destruct (Nat.le_gt_cases (length accountNumber) 99) as [Ha|Ha];
          [rewrite (Hacc2 Ha) in Hlen; lia|lia].
      * intros H65. specialize (H65 eq_refl). apply Hmi2.
        rewrite Hacc2 in Hlen by lia.
        destruct (truthy accountNumber); lia.
    + intros H99. rewrite Hacc2 in Hlen by lia. rewrite Hl.
      destruct (truthy accountNumber); lia.
  - destruct Hshape as [Hf Hl]. rewrite <- Hf in Hl.
    rewrite Hfn in Hlen by lia.
    split.
    + split; [intros _ E; discriminate E|]. intros _. apply Hmi2. lia.
    + intros _. lia.
  - destruct Hshape as (sub & _ & Hsub & Hf).
    assert (Hl : length (formatNumber phone number) = 12%nat)
      by (rewrite Hf, length_app, Hsub; reflexivity).
    rewrite Hfn in Hlen by lia.
    split.
    + split; [intros _ E; discriminate E|]. intros _. apply Hmi2. lia.
    + intros _. lia.
Qed.

Lemma template_length_two_digits_witness :
  validateNumber paybill (lit "123456") = true /\
  (length (length_field
             (merchantInfo_of paybill (formatNumber paybill (lit "123456"))
                (repeat 57 66))) = 2%nat <->
     (paybill = paybill -> (length (repeat 57 66) <= 65)%nat)) /\
  length (length_field
            (merchantInfo_of paybill (formatNumber paybill (lit "123456"))
               (repeat 57 66))) = 3%nat /\
  length (length_field (repeat 57 66)) = 2%nat.
Proof.
  assert (H : validateNumber paybill (lit "123456") = true) by reflexivity.
  split; [exact H|].
  split; [|split; vm_compute; reflexivity].
  exact (proj1 (template_length_two_digits paybill (lit "123456") (repeat 57 66) H)).
Defined.

(** ** Printable payloads *)

Lemma digit_printable (c : Z) : isDigit c = true -> printable c = true.
Proof.
  unfold isDigit, printable. intros H.
  apply andb_true_iff in H as [H1 H2].
  apply Z.leb_le in H1, H2.
  apply andb_true_iff. split; apply Z.leb_le; lia.
Qed.

Lemma upper_hex_printable (c : Z) : isUpperHex c = true -> printable c = true.
Proof.
  unfold isUpperHex, printable. intros H.
  apply andb_true_iff.
  apply orb_true_iff in H as [H|H]; apply andb_true_iff in H as [H1 H2];
    apply Z.leb_le in H1, H2; split; apply Z.leb_le; lia.
Qed.

Lemma forallb_weaken (P Q : Z -> bool) (s : jsstring) :
  (forall c, P c = true -> Q c = true) ->
  forallb P s = true -> forallb Q s = true.
Proof.
  intros HPQ H. apply forallb_forall. intros c Hc.
  apply HPQ. revert c Hc. apply forallb_forall. exact H.
Qed.

Lemma length_field_printable (v : jsstring) :
  forallb printable (length_field v) = true.
Proof.
  apply (forallb_weaken isDigit printable _ digit_printable).
  apply (length_field_declares v).
Qed.

Lemma merchantInfo_printable (paymentType : PaymentType)
    (formattedNumber accountNumber : jsstring) :
  forallb printable formattedNumber = true ->
  forallb printable accountNumber = true ->
  forallb printable (merchantInfo_of paymentType formattedNumber accountNumber)
    = true.
Proof.
  intros Hfn Hacc. unfold merchantInfo_of. cbv zeta.
  destruct paymentType; [destruct (truthy accountNumber)| |];
    rewrite !forallb_app, ?Hfn, ?Hacc, !length_field_printable; reflexivity.
Qed.

(** X8. When the account number and the business name are printable ASCII,
    so is every character of the payload of a valid number, whatever
    characters the number field carried. *)
Theorem payload_printable (paymentType : PaymentType)
    (number accountNumber businessName : jsstring) :
  validateNumber paymentType number = true ->
  forallb printable accountNumber = true ->
  forallb printable businessName = true ->
  forallb printable
    (generateQRValue paymentType number accountNumber businessName) = true.
Proof.
  intros Hv Hacc Hname.
  rewrite (generateQRValue_valid _ _ _ _ Hv).
  assert (Hfn : forallb printable (formatNumber paymentType number) = true).
  { apply (forallb_weaken isDigit printable _ digit_printable).
    apply formatNumber_all_digits. }
  pose proof (merchantInfo_printable paymentType _ accountNumber Hfn Hacc) as Hmi.
  rewrite forallb_app.
  assert (Hcrc : forall s, forallb printable (crc16ccitt s) = true).
  { intros s. apply (forallb_weaken isUpperHex printable _ upper_hex_printable).
    rewrite crc16ccitt_hex4. apply hex4_upper_hex. }
  rewrite Hcrc, andb_true_r.
  unfold qrText_before_crc. cbv zeta.
  destruct (truthy businessName);
    rewrite !forallb_app, ?Hmi, ?Hname, !length_field_printable; reflexivity.
Qed.

Lemma payload_printable_witness :
  validateNumber till (lit "12 345") = true /\
  forallb printable (lit "") = true /\
  forallb printable (lit "Mama Mboga") = true /\
  forallb printable
    (generateQRValue till (lit "12 345") (lit "") (lit "Mama Mboga")) = true.
Proof.
  assert (Hv : validateNumber till (lit "12 345") = true) by reflexivity.
  assert (Ha : forallb printable (lit "") = true) by reflexivity.
  assert (Hn : forallb printable (lit "Mama Mboga") = true) by reflexivity.
  split; [exact Hv|]. split; [exact Ha|]. split; [exact Hn|].
  exact (payload_printable till (lit "12 345") (lit "") (lit "Mama Mboga") Hv Ha Hn).
Defined.

(** * Properties of the form *)

Lemma shouldShowQR_validateNumber (st : State) :
  shouldShowQR st = validateNumber (paymentType st) (number st).
Proof.
  unfold shouldShowQR.
  destruct (validateNumber (paymentType st) (number st)) eqn:Hv.
  - rewrite (validateNumber_nonempty _ _ Hv). reflexivity.
  - apply andb_false_r.
Qed.

Lemma truthy_qrValue (st : State) :
  truthy (qrValue st) = validateNumber (paymentType st) (number st).
Proof.
  unfold qrValue.
  destruct (validateNumber (paymentType st) (number st)) eqn:Hv.
  - rewrite (generateQRValue_valid _ _ (accountNumber st) (businessName st) Hv).
    destruct (qrText_before_crc_starts (paymentType st)
                (formatNumber (paymentType st) (number st))
                (accountNumber st) (businessName st)) as [rest ->].
    reflexivity.
  - rewrite (generateQRValue_invalid _ _ (accountNumber st) (businessName st) Hv).
    reflexivity.
Qed.

Lemma buttonsDisabled_validateNumber (st : State) :
  buttonsDisabled st = negb (validateNumber (paymentType st) (number st)).
Proof.
  unfold buttonsDisabled.
  rewrite shouldShowQR_validateNumber, truthy_qrValue.
  destruct (validateNumber (paymentType st) (number st)); reflexivity.
Qed.

(** X9. The QR code is rendered, and the download and print buttons are
    enabled, exactly when the number passes validation; the second half of
    both conditions, the non-empty payload, never decides. *)
Theorem qr_shown_iff_valid (st : State) :
  showsQR st = validateNumber (paymentType st) (number st) /\
  buttonsDisabled st = negb (showsQR st) /\
  shouldShowQR st = truthy (qrValue st).
Proof.
  assert (Hshow : showsQR st = validateNumber (paymentType st) (number st)).
  { unfold showsQR. rewrite shouldShowQR_validateNumber, truthy_qrValue.
    apply andb_diag. }
  split; [exact Hshow|]. split.
  - rewrite Hshow. apply buttonsDisabled_validateNumber.
  - rewrite shouldShowQR_validateNumber, truthy_qrValue. reflexivity.
Qed.

(** On a valid number both handlers get past their first guard. *)
Lemma valid_passes_guard (st : State) :
  validateNumber (paymentType st) (number st) = true ->
  printQR st = (st, true) /\
  downloadQR true st = DownloadTried (downloadName st) /\
  downloadQR false st =
    DownloadRefused (setError (Some (lit "Error generating QR code")) st).
Proof.
  intros H. unfold printQR, downloadQR. rewrite H. repeat split.
Qed.

(** X10. A click on an enabled button never meets the guard of its handler:
    [printQR] prints and leaves the state as it is, and [downloadQR] goes on
    to its [try] block when the SVG element is found. *)
Theorem enabled_buttons_pass_guard (st : State) :
  buttonsDisabled st = false ->
  printQR st = (st, true) /\
  downloadQR true st = DownloadTried (downloadName st) /\
  downloadQR false st =
    DownloadRefused (setError (Some (lit "Error generating QR code")) st).
Proof.
  rewrite buttonsDisabled_validateNumber. intros H.
  apply negb_false_iff in H. apply valid_passes_guard. exact H.
Qed.

Lemma enabled_buttons_pass_guard_witness :
  buttonsDisabled (mkState till (lit "54321") (lit "") (lit "") None) = false /\
  printQR (mkState till (lit "54321") (lit "") (lit "") None) =
    (mkState till (lit "54321") (lit "") (lit "") None, true) /\
  downloadQR true (mkState till (lit "54321") (lit "") (lit "") None) =
    DownloadTried (lit "mpesa-qr-till-54321.png").
Proof.
  assert (H : buttonsDisabled (mkState till (lit "54321") (lit "") (lit "") None)
              = false) by (vm_compute; reflexivity).
  split; [exact H|].
  destruct (enabled_buttons_pass_guard _ H) as (Hp & Hd & _).
  split; [exact Hp|exact Hd].
Defined.

(** X11. The name of the downloaded file is printable ASCII whatever was
    typed: the number enters it with its digits only. *)
Theorem downloadName_printable (st : State) :
  forallb printable (downloadName st) = true /\
  exists digits,
    all_digits digits = true /\
    downloadName st =
      lit "mpesa-qr-" ++ paymentType_string (paymentType st) ++ lit "-"
        ++ digits ++ lit ".png".
Proof.
  split.
  - unfold downloadName. rewrite !forallb_app.
    rewrite (forallb_weaken isDigit printable _ digit_printable
               (formatNumber_all_digits (paymentType st) (number st))).
    destruct (paymentType st); reflexivity.
  - exists (formatNumber (paymentType st) (number st)).
    split; [apply formatNumber_all_digits|reflexivity].
Qed.

(** X12. After a payment type is selected no QR code is rendered and both
    buttons are disabled, whatever the form held before; the number and the
    account number are emptied and the business name is kept. *)
Theorem selectPaymentType_resets (t : PaymentType) (st : State) :
  let st' := selectPaymentType t st in
  showsQR st' = false /\ buttonsDisabled st' = true /\ qrValue st' = lit "" /\
  paymentType st' = t /\ number st' = lit "" /\ accountNumber st' = lit "" /\
  businessName st' = businessName st /\ error st' = None.
Proof.
  intros st'.
  assert (Hv : validateNumber (paymentType st') (number st') = false)
    by reflexivity.
  assert (Hshow : showsQR st' = false).
  { unfold showsQR. rewrite shouldShowQR_validateNumber, Hv. reflexivity. }
  split; [exact Hshow|].
  split; [rewrite buttonsDisabled_validateNumber, Hv; reflexivity|].
  split; [unfold qrValue; apply generateQRValue_invalid; exact Hv|].
  repeat split.
Qed.

(** ** The states the form can reach *)

Lemma step_enabled_download (svg : bool) (st st' : State) :
  buttonsDisabled st = false ->
  downloadQR svg st = DownloadRefused st' ->
  st' = setError (Some (lit "Error generating QR code")) st.
Proof.
  intros Hen Hd.
  rewrite buttonsDisabled_validateNumber in Hen. apply negb_false_iff in Hen.
  destruct (valid_passes_guard st Hen) as (_ & Htrue & Hfalse).
  destruct svg.
  - rewrite Htrue in Hd. discriminate Hd.
  - rewrite Hfalse in Hd. injection Hd as <-. reflexivity.
Qed.

(** What a step can do to the payment type, the account number and the
    error. *)
Lemma step_cases (st st' : State) :
  step st st' ->
  (accountNumber st' = lit "" /\ error st' = None) \/
  (paymentType st' = paymentType st /\ accountNumber st' = accountNumber st /\
   (error st' = error st \/ error st' = None
    \/ error st' = Some (lit "Error generating QR code")
    \/ error st' = Some (lit "Error downloading QR code"))) \/
  (paymentType st = paybill /\ paymentType st' = paybill /\ error st' = None).
Proof.
  intros Hstep. destruct Hstep as
    [t st|v st|v st Hacc|v st|st Hen|svg st st' Hen Hd|svg st f Hen Hd
     |svg st f Hen Hd].
  - left. split; reflexivity.
  - right. left. cbn. auto.
  - right. right. unfold accountInputRendered in Hacc. cbn.
    destruct (paymentType st); try discriminate Hacc. auto.
  - right. left. cbn. auto.
  - right. left.
    rewrite buttonsDisabled_validateNumber in Hen. apply negb_false_iff in Hen.
    destruct (valid_passes_guard st Hen) as (-> & _). cbn. auto.
  - right. left. rewrite (step_enabled_download svg st st' Hen Hd). cbn. auto 6.
  - right. left. auto.
  - right. left. cbn. auto 6.
Qed.

Lemma reachable_account_invariant (st : State) :
  reachable st ->
  paymentType st <> paybill -> accountNumber st = lit "".
Proof.
  intros Hreach. induction Hreach as [|st st' _ IH Hstep]; intros Hpt.
  - reflexivity.
  - destruct (step_cases st st' Hstep)
      as [[Hacc _]|[(Hp & Hacc & _)|(_ & Hp & _)]].
    + exact Hacc.
    + rewrite Hacc. apply IH. rewrite <- Hp. exact Hpt.
    + contradiction.
Qed.

(** The payload of a paybill number with an account number. *)
Lemma paybill_account_in_payload (number accountNumber businessName : jsstring) :
  validateNumber paybill number = true ->
  truthy accountNumber = true ->
  exists pre post,
    generateQRValue paybill number accountNumber businessName =
      pre ++ tlv (lit "02") accountNumber ++ post.
Proof.
  intros Hv Hacc. rewrite (generateQRValue_valid _ _ _ _ Hv).
  set (fn := formatNumber paybill number).
  set (crc := crc16ccitt (qrText_before_crc paybill fn accountNumber businessName)).
  clearbody crc.
  unfold qrText_before_crc. cbv zeta.
  set (len26 := length_field (merchantInfo_of paybill fn accountNumber)).
  clearbody len26.
  unfold merchantInfo_of. cbv zeta. rewrite Hacc.
  unfold tlv, emit, computed_field. cbn [tag declared value].
  exists (lit "000201" ++ lit "0102" ++ lit "26" ++ len26
            ++ lit "00" ++ lit "14" ++ lit "A000000677010111"
            ++ lit "01" ++ length_field fn ++ fn).
  exists (lit "5303KES" ++ lit "5802KE"
            ++ (if truthy businessName
                then lit "59" ++ length_field businessName ++ businessName
                else [])
            ++ lit "6304" ++ crc).
  destruct (truthy businessName); rewrite <- !app_assoc; reflexivity.
Qed.

(** X13. In every state the form can reach, the account number is empty
    unless the payment type is paybill; so whenever a payload is produced, an
    account number that the form holds is part of it, as sub-field 02 with
    its computed length. *)
Theorem reachable_account_is_emitted (st : State) :
  reachable st ->
  (paymentType st <> paybill -> accountNumber st = lit "") /\
  (validateNumber (paymentType st) (number st) = true ->
   truthy (accountNumber st) = true ->
   exists pre post,
     qrValue st = pre ++ tlv (lit "02") (accountNumber st) ++ post).
Proof.
  intros Hreach.
  pose proof (reachable_account_invariant st Hreach) as Hinv.
  split; [exact Hinv|].
  intros Hv Hacc. unfold qrValue.
  destruct (paymentType st) eqn:Hp.
  - apply paybill_account_in_payload; assumption.
  - rewrite Hinv in Hacc by discriminate. discriminate Hacc.
  - rewrite Hinv in Hacc by discriminate. discriminate Hacc.
Qed.

Lemma reachable_paybill_with_account :
  reachable (mkState paybill (lit "123456") (lit "00100") (lit "") None).
Proof.
  apply (reachable_step (handleNumberChange (lit "123456") initial)).
  - apply (reachable_step initial); [exact reachable_initial|apply step_number].
  - apply (step_account (lit "00100") (handleNumberChange (lit "123456") initial)).
    reflexivity.
Qed.

Lemma reachable_account_is_emitted_witness :
  reachable (mkState paybill (lit "123456") (lit "00100") (lit "") None) /\
  ((paymentType (mkState paybill (lit "123456") (lit "00100") (lit "") None)
      <> paybill ->
    accountNumber (mkState paybill (lit "123456") (lit "00100") (lit "") None)
      = lit "") /\
   (validateNumber
      (paymentType (mkState paybill (lit "123456") (lit "00100") (lit "") None))
      (number (mkState paybill (lit "123456") (lit "00100") (lit "") None))
      = true ->
    truthy
      (accountNumber (mkState paybill (lit "123456") (lit "00100") (lit "") None))
      = true ->
    exists pre post,
      qrValue (mkState paybill (lit "123456") (lit "00100") (lit "") None) =
        pre
        ++ tlv (lit "02")
             (accountNumber
                (mkState paybill (lit "123456") (lit "00100") (lit "") None))
        ++ post)).
Proof.
  split; [exact reachable_paybill_with_account|].
  exact (reachable_account_is_emitted _ reachable_paybill_with_account).
Defined.

Lemma reachable_till_with_number :
  reachable (mkState till (lit "54321") (lit "") (lit "") None).
Proof.
  apply (reachable_step (selectPaymentType till initial)).
  - apply (reachable_step initial); [exact reachable_initial|apply step_select].
  - apply (step_number (lit "54321") (selectPaymentType till initial)).
Qed.

(** X14. In no state the form can reach is the error one of the two
    messages [Please enter a valid number before ...]: the buttons that
    could set them are disabled whenever the number is invalid. *)
Theorem reachable_error_messages (st : State) :
  reachable st ->
  error st = None \/
  error st = Some (lit "Error generating QR code") \/
  error st = Some (lit "Error downloading QR code").
Proof.
  intros Hreach. induction Hreach as [|st st' _ IH Hstep].
  - left. reflexivity.
  - destruct (step_cases st st' Hstep)
      as [[_ He]|[(_ & _ & [He|[He|[He|He]]])|(_ & _ & He)]];
      try (left; exact He); try (right; left; exact He);
      try (right; right; exact He).
    rewrite He. exact IH.
Qed.

Lemma reachable_error_messages_witness :
  reachable (mkState till (lit "54321") (lit "") (lit "") None) /\
  (error (mkState till (lit "54321") (lit "") (lit "") None) = None \/
   error (mkState till (lit "54321") (lit "") (lit "") None) =
     Some (lit "Error generating QR code") \/
   error (mkState till (lit "54321") (lit "") (lit "") None) =
     Some (lit "Error downloading QR code")).
Proof.
  split; [exact reachable_till_with_number|].
  exact (reachable_error_messages _ reachable_till_with_number).
Defined.

(** * The payload determines the number *)

Lemma length_field_same_length (u v : jsstring) :
  length u = length v -> length_field u = length_field v.
Proof.
  intros H. unfold length_field, length_toString. rewrite H. reflexivity.
Qed.

(** The text of [qrText] around the template. *)
Lemma qrText_around_template (paymentType : PaymentType)
    (formattedNumber accountNumber businessName : jsstring) :
  exists after,
    forall fn,
      qrText_before_crc paymentType fn accountNumber businessName =
        lit "0002010102" ++ lit "26"
        ++ (length_field (merchantInfo_of paymentType fn accountNumber)
            ++ merchantInfo_of paymentType fn accountNumber)
        ++ after.
Proof.
  exists (lit "5303KES" ++ lit "5802KE"
            ++ (if truthy businessName
                then lit "59" ++ length_field businessName ++ businessName
                else [])
            ++ lit "6304").
  intros fn. unfold qrText_before_crc. cbv zeta.
  destruct (truthy businessName); rewrite <- !app_assoc; reflexivity.
Qed.

(** The text of the template around the number. *)
Lemma merchantInfo_around_number (paymentType : PaymentType)
    (accountNumber : jsstring) :
  exists before after,
    forall fn,
      merchantInfo_of paymentType fn accountNumber =
        before ++ (length_field fn ++ fn) ++ after.
Proof.
  exists (lit "0014A000000677010111" ++ number_tag paymentType).
  exists (emit_all (account_fields paymentType accountNumber)).
  intros fn. rewrite merchantInfo_fields. unfold merchant_fields. cbn [app].
  rewrite !emit_all_cons.
  unfold emit, computed_field, guid_field. cbn [tag declared value].
  destruct paymentType; cbn [number_tag]; rewrite <- !app_assoc; reflexivity.
Qed.

Lemma app_same_length_inv (A : Type) (u u' v v' : list A) :
  length u = length u' -> u ++ v = u' ++ v' -> u = u' /\ v = v'.
Proof.
  revert u'. induction u as [|a u IH]; intros [|a' u'] Hl H;
    try discriminate Hl.
  - split; [reflexivity|exact H].
  - cbn [app] in H. injection H as <- H. cbn [length] in Hl.
    destruct (IH u' ltac:(lia) H) as [-> ->]. split; reflexivity.
Qed.

Lemma valid_formatNumber_len (paymentType : PaymentType) (x : jsstring) :
  validateNumber paymentType x = true ->
  match paymentType with
  | paybill => length (formatNumber paymentType x) = 6%nat
  | till =>
      length (formatNumber paymentType x) = 5%nat \/
      length (formatNumber paymentType x) = 6%nat
  | phone => length (formatNumber paymentType x) = 12%nat
  end.
Proof.
  intros Hv. pose proof (valid_formatNumber_length paymentType x Hv) as S.
  destruct paymentType.
  - destruct S as [-> S]. exact S.
  - destruct S as [-> S]. exact S.
  - destruct S as (sub & _ & Hl & ->). rewrite length_app, Hl. reflexivity.
Qed.

(** X15. For one payment type, account number and business name, two valid
    numbers give the same payload only when they normalise to the same
    number: no two payment targets share a QR code. *)
Theorem payload_determines_number (paymentType : PaymentType)
    (x y accountNumber businessName : jsstring) :
  validateNumber paymentType x = true ->
  validateNumber paymentType y = true ->
  generateQRValue paymentType x accountNumber businessName =
    generateQRValue paymentType y accountNumber businessName ->
  formatNumber paymentType x = formatNumber paymentType y.
Proof.
  intros Hx Hy Heq.
  rewrite (generateQRValue_valid _ _ _ _ Hx), (generateQRValue_valid _ _ _ _ Hy)
    in Heq.
  pose proof (valid_formatNumber_len paymentType x Hx) as Sx.
  pose proof (valid_formatNumber_len paymentType y Hy) as Sy.
  remember (formatNumber paymentType x) as fx eqn:Efx.
  remember (formatNumber paymentType y) as fy eqn:Efy.
  clear Efx Efy Hx Hy x y.
  assert (Hq : qrText_before_crc paymentType fx accountNumber businessName =
               qrText_before_crc paymentType fy accountNumber businessName).
  { apply (f_equal (slice_drop_last 4)) in Heq.
    rewrite (proj1 (slice_app 4 _ _ (crc16ccitt_length _))) in Heq.
    rewrite (proj1 (slice_app 4 _ _ (crc16ccitt_length _))) in Heq.
    exact Heq. }
  clear Heq.
  destruct (qrText_around_template paymentType fx accountNumber businessName)
    as [after Hqr].
  rewrite (Hqr fx), (Hqr fy) in Hq.
  apply app_inv_head, app_inv_head, app_inv_tail in Hq.
  destruct (merchantInfo_around_number paymentType accountNumber)
    as (before & aft & Hmi).
  assert (Hshort : forall f, (length f <= 12)%nat ->
            length (merchantInfo_of paymentType f accountNumber) =
              (length before + (2 + length f) + length aft)%nat).
  { intros f Hf. rewrite (Hmi f), !length_app.
    rewrite (proj1 (length_field_length f)) by lia. lia. }
  assert (Hfx : (length fx <= 12)%nat)
    by (destruct paymentType; [lia|destruct Sx; lia|lia]).
  assert (Hfy : (length fy <= 12)%nat)
    by (destruct paymentType; [lia|destruct Sy; lia|lia]).
  pose proof (Hshort fx Hfx) as Hlx. pose proof (Hshort fy Hfy) as Hly.
  remember (merchantInfo_of paymentType fx accountNumber) as mx eqn:Emx.
  remember (merchantInfo_of paymentType fy accountNumber) as my eqn:Emy.
  assert (Hsame : length fx = length fy).
  { destruct paymentType; [lia| |lia].
    pose proof (merchantInfo_length till fx accountNumber) as Lmx.
    pose proof (merchantInfo_length till fy accountNumber) as Lmy.
    rewrite <- Emx in Lmx. rewrite <- Emy in Lmy.
    rewrite (proj1 (length_field_length fx)) in Lmx by lia.
    rewrite (proj1 (length_field_length fy)) in Lmy by lia.
    apply (f_equal (@length Z)) in Hq. rewrite !length_app in Hq.
    rewrite (proj1 (length_field_length mx)) in Hq by lia.
    rewrite (proj1 (length_field_length my)) in Hq by lia.
    lia. }
  assert (Hm : length mx = length my) by lia.
  apply app_same_length_inv in Hq;
    [|rewrite (length_field_same_length mx my Hm); reflexivity].
  destruct Hq as [_ Hq]. rewrite Emx, Emy in Hq.
  rewrite (Hmi fx), (Hmi fy) in Hq.
  apply app_inv_head, app_inv_tail in Hq.
  apply app_same_length_inv in Hq;
    [|rewrite (length_field_same_length fx fy Hsame); reflexivity].
  apply Hq.
Qed.

Lemma payload_determines_number_witness :
  validateNumber phone (lit "0712345678") = true /\
  validateNumber phone (lit "254712345678") = true /\
  generateQRValue phone (lit "0712345678") (lit "") (lit "Duka") =
    generateQRValue phone (lit "254712345678") (lit "") (lit "Duka") /\
  formatNumber phone (lit "0712345678") = formatNumber phone (lit "254712345678").
Proof.
  assert (Hx : validateNumber phone (lit "0712345678") = true) by reflexivity.
  assert (Hy : validateNumber phone (lit "254712345678") = true) by reflexivity.
  assert (He : generateQRValue phone (lit "0712345678") (lit "") (lit "Duka") =
               generateQRValue phone (lit "254712345678") (lit "") (lit "Duka"))
    by (vm_compute; reflexivity).
  split; [exact Hx|]. split; [exact Hy|]. split; [exact He|].
  exact (payload_determines_number phone (lit "0712345678")
           (lit "254712345678") (lit "") (lit "Duka") Hx Hy He).
Defined.

(** Each placeholder is a number that its payment type accepts. *)
Lemma getPlaceholder_valid (paymentType : PaymentType) :
  validateNumber paymentType (getPlaceholder paymentType) = true.
Proof. destruct paymentType; vm_compute; reflexivity. Qed.
